(** * SchedulifyX SDK: the request dispatcher and its call-sites

    A shallow embedding of [src/index.ts].  The SDK is one class,
    [SchedulifyX], whose private method [request] builds a URL, arms an
    abort timer, performs one [fetch] and normalises failures into
    [SchedulifyXError]; every public method is a call-site of [request],
    and [media.upload] composes [media.getUploadUrl] with one direct
    [fetch].

    Layout of the development:
    - [JS]       : the JavaScript values the SDK handles and the language
                   operations it applies to them (truthiness, [String],
                   [JSON.stringify], property access);
    - [Host]     : what the platform provides and the SDK only calls
                   (URL syntax, timer clamping);
    - [Async]    : a state-and-rejection monad for [async] code, with the
                   network as a script and the calls made on the platform
                   as a trace;
    - the class itself, its call-sites, and the theorems. *)

From Stdlib Require Import String Ascii ZArith List Bool Lia DecimalString.
Import ListNotations.
Local Open Scope string_scope.
Local Open Scope Z_scope.

(* ================================================================== *)
(** ** JavaScript values *)
(* ================================================================== *)

Module JS.

#[local] Set Warnings "-register-all".

(** The values that reach the SDK: request bodies, parsed JSON responses
    and the fields of error bodies.  Numbers are the safe integers, those
    of absolute value below 2^53 ([safe_integer]): every number the SDK
    itself touches (HTTP status, timeout, limit, offset, days, count) is
    one, and on them the text of a number is its decimal digits.  Larger
    integers (which JavaScript rounds, and writes in exponent form from
    1e21 on), NaN, infinities and fractions are outside this model.  An
    object is the list of its own enumerable properties in property
    order; an object has no two properties of one name. *)
Inductive jsval : Type :=
| JUndefined
| JNull
| JBool (b : bool)
| JNum (n : Z)
| JStr (s : string)
| JArr (items : list jsval)
| JObj (props : list (string * jsval)).

(** [Number.MAX_SAFE_INTEGER] bounds the numbers of the model. *)
Definition safe_integer (n : Z) : bool := Z.abs n <=? 9007199254740991.

(** Decimal rendering of a safe integer, as in a template literal or
    [String(n)]. *)
Definition Number_toString (n : Z) : string :=
  NilZero.string_of_int (Z.to_int n).

(** [ToBoolean]: the test behind [x ? a : b], [x || y] and [!x]. *)
Definition truthy (v : jsval) : bool :=
  match v with
  | JUndefined | JNull => false
  | JBool b => b
  | JNum n => negb (n =? 0)
  | JStr s => negb (s =? "")%string
  | JArr _ | JObj _ => true
  end.

(** [a || b] *)
Definition or_else (a b : jsval) : jsval := if truthy a then a else b.

(** [String(v)] / [ToString], for a [v] on which the conversion returns
    ([String_throws] below says when it throws instead): what
    [super(message)] stores and what a template literal interpolates. *)
Fixpoint ToString (v : jsval) : string :=
  match v with
  | JUndefined => "undefined"
  | JNull => "null"
  | JBool true => "true"
  | JBool false => "false"
  | JNum n => Number_toString n
  | JStr s => s
  | JArr items =>
      String.concat ","
        (map (fun x => match x with
                       | JUndefined | JNull => ""
                       | _ => ToString x
                       end) items)
  | JObj _ => "[object Object]"
  end.

(** Own-property lookup in a property list. *)
Fixpoint lookup_prop (k : string) (props : list (string * jsval)) : option jsval :=
  match props with
  | [] => None
  | (k', v) :: rest => if (k =? k')%string then Some v else lookup_prop k rest
  end.

(** [v.k] for a [v] that is neither [null] nor [undefined].  The SDK reads
    only the names [error], [message], [code], [details], [data],
    [uploadUrl] and [mediaUrl], which no array, string, number or boolean
    carries: on those the read gives [undefined]. *)
Definition get_prop (v : jsval) (k : string) : jsval :=
  match v with
  | JObj props => match lookup_prop k props with
                  | Some x => x
                  | None => JUndefined
                  end
  | _ => JUndefined
  end.

(** Does [String(v)] throw [TypeError]?  A parsed JSON object with an own
    property named [toString] has no callable [toString] (the property
    hides [Object.prototype.toString], and no JSON value is a function)
    and its inherited [valueOf] returns the object itself, so the
    conversion to a primitive fails; every other parsed object converts
    through [Object.prototype.toString].  An array converts through
    [join], which converts each element that is neither [null] nor
    [undefined]. *)
Fixpoint String_throws (v : jsval) : bool :=
  match v with
  | JObj props => match lookup_prop "toString" props with
                  | Some _ => true
                  | None => false
                  end
  | JArr items => existsb String_throws items
  | _ => false
  end.

(** Is every number inside [v] a number of the model? *)
Fixpoint numbers_safe (v : jsval) : bool :=
  match v with
  | JNum n => safe_integer n
  | JArr items => forallb numbers_safe items
  | JObj props => forallb (fun kv => numbers_safe (snd kv)) props
  | _ => true
  end.

Definition nullish (v : jsval) : bool :=
  match v with
  | JUndefined | JNull => true
  | _ => false
  end.

(** [v?.k] *)
Definition opt_member (v : jsval) (k : string) : jsval :=
  if nullish v then JUndefined else get_prop v k.

(** *** [JSON.stringify] *)

Definition hex_digit (n : N) : ascii :=
  match n with
  | 0%N => "0" | 1%N => "1" | 2%N => "2" | 3%N => "3"
  | 4%N => "4" | 5%N => "5" | 6%N => "6" | 7%N => "7"
  | 8%N => "8" | 9%N => "9" | 10%N => "a" | 11%N => "b"
  | 12%N => "c" | 13%N => "d" | 14%N => "e" | _ => "f"
  end%char.

(** The one-character string holding a double quote. *)
Definition dquote : string := String (ascii_of_N 34) EmptyString.

(** One character of [QuoteJSONString]. *)
Definition quote_char (c : ascii) : string :=
  let n := N_of_ascii c in
  if (n =? 34)%N then String "\" dquote
  else if (n =? 92)%N then "\\"
  else if (n =? 8)%N then "\b"
  else if (n =? 9)%N then "\t"
  else if (n =? 10)%N then "\n"
  else if (n =? 12)%N then "\f"
  else if (n =? 13)%N then "\r"
  else if (n <? 32)%N then
    "\u00" ++ String (hex_digit (n / 16)) (String (hex_digit (n mod 16)) "")
  else String c "".

Fixpoint quote_chars (s : string) : string :=
  match s with
  | EmptyString => ""
  | String c rest => quote_char c ++ quote_chars rest
  end.

Definition QuoteJSONString (s : string) : string :=
  dquote ++ quote_chars s ++ dquote.

(** [JSON.stringify(v)]; [None] is the result [undefined].  A property
    whose value is [undefined] is left out of an object, an [undefined]
    array element is written [null]. *)
Fixpoint JSON_stringify (v : jsval) : option string :=
  match v with
  | JUndefined => None
  | JNull => Some "null"
  | JBool true => Some "true"
  | JBool false => Some "false"
  | JNum n => Some (Number_toString n)
  | JStr s => Some (QuoteJSONString s)
  | JArr items =>
      Some ("[" ++ String.concat ","
                     (map (fun x => match JSON_stringify x with
                                    | Some t => t
                                    | None => "null"
                                    end) items) ++ "]")
  | JObj props =>
      Some ("{" ++ String.concat ","
                     (flat_map (fun kv => match JSON_stringify (snd kv) with
                                          | Some t => [QuoteJSONString (fst kv) ++ ":" ++ t]
                                          | None => []
                                          end) props) ++ "}")
  end.

End JS.
Import JS.

(* ================================================================== *)
(** ** The host platform *)
(* ================================================================== *)

(** A [URL] object as the SDK uses it: the query is the list behind
    [url.searchParams]; everything else is text the SDK never looks into. *)
Record URL : Type := mkURL {
  url_head : string;                      (* scheme, authority and path *)
  url_search : list (string * string);    (* name/value pairs of the query *)
  url_hash : string                       (* fragment *)
}.

Module URLSearchParams.

(** Drops every pair named [name]. *)
Fixpoint remove (name : string) (l : list (string * string)) : list (string * string) :=
  match l with
  | [] => []
  | (k, v) :: rest =>
      if (k =? name)%string then remove name rest else (k, v) :: remove name rest
  end.

(** [searchParams.set(name, value)]: the first pair named [name] takes
    the value and the later ones are removed; with no such pair a new one
    is appended. *)
Fixpoint set (name value : string) (l : list (string * string)) : list (string * string) :=
  match l with
  | [] => [(name, value)]
  | (k, v) :: rest =>
      if (k =? name)%string then (name, value) :: remove name rest
      else (k, v) :: set name value rest
  end.

(** How many pairs are named [name]. *)
Definition occurrences (name : string) (l : list (string * string)) : nat :=
  length (filter (fun kv => (fst kv =? name)%string) l).

(** [searchParams.getAll(name)] *)
Definition getAll (name : string) (l : list (string * string)) : list string :=
  map snd (filter (fun kv => (fst kv =? name)%string) l).

End URLSearchParams.

(** What the SDK calls and does not implement.
    - [URL_parse s] is [new URL(s)]: [None] when the constructor throws
      [TypeError], else the parsed URL with the query [s] already carries;
    - [URL_href u] is [u.toString()];
    - [timer_delay ms] is the delay after which a [setTimeout(f, ms)]
      callback runs (hosts clamp what is out of their range). *)
Class Host : Type := {
  URL_parse : string -> option URL;
  URL_href : URL -> string;
  timer_delay : Z -> Z
}.

(* ================================================================== *)
(** ** The error class *)
(* ================================================================== *)

(** [class SchedulifyXError extends Error].  [code] and [details] hold
    whatever the constructor is given: for an API error that is a field of
    a parsed JSON body, which the code does not check to be a string. *)
Record SchedulifyXError : Type := {
  name : string;
  message : string;
  code : jsval;
  status : Z;
  details : jsval
}.

(** The constructor: [super(message)] stores [String(message)] (and the
    empty string for an absent message), the other arguments are stored
    as given. *)
Definition new_SchedulifyXError (message code : jsval) (status : Z) (details : jsval)
  : SchedulifyXError :=
  {| name := "SchedulifyXError";
     message := match message with
                | JUndefined => ""
                | m => ToString m
                end;
     code := code;
     status := status;
     details := details |}.

(** What a [throw] or a rejected promise carries. *)
Inductive Thrown : Type :=
| ThrownSX (e : SchedulifyXError)            (* instanceof SchedulifyXError *)
| ThrownError (name message : string)        (* any other instanceof Error *)
| ThrownOther (v : jsval).                   (* a value that is no Error *)

(** The [TypeError] of [super(message)] on a message that [String] cannot
    convert (V8's wording of the message). *)
Definition conversion_TypeError : Thrown :=
  ThrownError "TypeError" "Cannot convert object to primitive value".

(* ================================================================== *)
(** ** Asynchronous code *)
(* ================================================================== *)

Module Async.

(** The state of a promise, and the outcome of awaiting it. *)
Inductive Settled (A : Type) : Type :=
| Fulfilled (a : A)
| Rejected (e : Thrown)
| Pending.                                   (* never settles *)
Arguments Fulfilled {A} a.
Arguments Rejected {A} e.
Arguments Pending {A}.

Definition Blob : Type := list Byte.byte.

Inductive BodyInit : Type :=
| BodyText (s : string)
| BodyBlob (b : Blob).

(** The second argument of [fetch]. *)
Record RequestInit : Type := {
  method : string;
  headers : list (string * string);
  body : option BodyInit;
  signal : bool               (* is the controller's signal attached? *)
}.

(** A [Response]: its status and what [response.json()] settles to
    (the parsed body, a rejection when the text is not JSON or the body
    stream breaks, or nothing). *)
Record Response : Type := {
  resp_status : Z;
  resp_json : Settled jsval
}.

(** [response.ok] *)
Definition ok (r : Response) : bool :=
  (200 <=? resp_status r) && (resp_status r <=? 299).

(** What the network does with one [fetch]: answer or fail after some
    milliseconds, or stay silent. *)
Inductive FetchBehaviour : Type :=
| Responds (after : Z) (r : Response)
| Fails (after : Z) (e : Thrown)
| Silent.

(** The calls the SDK makes on the platform, in order. *)
Inductive event : Type :=
| EvSetTimeout (ms : Z)                      (* setTimeout(() => controller.abort(), ms) *)
| EvFetch (url : string) (init : RequestInit)
| EvAbort                                    (* the timer ran controller.abort() *)
| EvClearTimeout
| EvJson.                                    (* response.json() *)

(** The world one flow of control runs in: what the network will do with
    the successive fetches, the armed abort timer (its delay) if any, and
    the trace so far. *)
Record World : Type := {
  network : list FetchBehaviour;
  abort_timer : option Z;
  trace : list event
}.

Definition M (A : Type) : Type := World -> Settled A * World.

Definition ret {A} (a : A) : M A := fun w => (Fulfilled a, w).

Definition bind {A B} (m : M A) (k : A -> M B) : M B :=
  fun w =>
    match m w with
    | (Fulfilled a, w') => k a w'
    | (Rejected e, w') => (Rejected e, w')
    | (Pending, w') => (Pending, w')
    end.

Definition throw {A} (e : Thrown) : M A := fun w => (Rejected e, w).

(** [try { m } catch (error) { h error }] *)
Definition try_catch {A} (m : M A) (h : Thrown -> M A) : M A :=
  fun w =>
    match m w with
    | (Rejected e, w') => h e w'
    | r => r
    end.

(** [await p] *)
Definition await {A} (p : Settled A) : M A := fun w => (p, w).

(** [p.catch(f)] for an [f] that returns a plain value. *)
Definition promise_catch {A} (p : Settled A) (f : Thrown -> A) : Settled A :=
  match p with
  | Rejected e => Fulfilled (f e)
  | _ => p
  end.

Definition log (e : event) : M unit :=
  fun w => (Fulfilled tt,
            {| network := network w; abort_timer := abort_timer w;
               trace := trace w ++ [e] |}).

Definition set_timer (t : option Z) : M unit :=
  fun w => (Fulfilled tt,
            {| network := network w; abort_timer := t; trace := trace w |}).

Definition get_timer : M (option Z) := fun w => (Fulfilled (abort_timer w), w).

(** Takes the network's behaviour for the next fetch; a network with
    nothing left to say stays silent. *)
Definition next_behaviour : M FetchBehaviour :=
  fun w =>
    match network w with
    | [] => (Fulfilled Silent, w)
    | b :: rest =>
        (Fulfilled b,
         {| network := rest; abort_timer := abort_timer w; trace := trace w |})
    end.

End Async.
Import Async.

Declare Scope async_scope.
Delimit Scope async_scope with async.
Notation "x <- m ;; k" := (bind m (fun x => k))
  (at level 61, m at next level, right associativity) : async_scope.
Notation "m ;; k" := (bind m (fun _ => k))
  (at level 61, right associativity) : async_scope.
Local Open Scope async_scope.

(* ================================================================== *)
(** ** Platform calls *)
(* ================================================================== *)

Section Platform.
Context {host : Host}.

(** [setTimeout(() => controller.abort(), ms)] *)
Definition setTimeout_abort (ms : Z) : M unit :=
  log (EvSetTimeout ms) ;;
  set_timer (Some (timer_delay ms)).

(** [clearTimeout(timeoutId)] *)
Definition clearTimeout : M unit :=
  log EvClearTimeout ;;
  set_timer None.

(** The rejection of a fetch whose signal is aborted: a [DOMException]
    named [AbortError], which is an instance of [Error]. *)
Definition AbortError : Thrown :=
  ThrownError "AbortError" "This operation was aborted".

(** The timer runs [controller.abort()]: the fetch rejects. *)
Definition fire_abort {A} : M A :=
  log EvAbort ;;
  set_timer None ;;
  throw AbortError.

(** [await fetch(url, init)].  With the signal attached the fetch races
    the armed timer: it settles only if the network is done strictly
    before the timer's delay, otherwise the timer aborts it.  With no
    signal the promise follows the network, and is pending for ever on a
    silent one. *)
Definition fetch (url : string) (init : RequestInit) : M Response :=
  log (EvFetch url init) ;;
  b <- next_behaviour ;;
  timer <- get_timer ;;
  let deadline := if signal init then timer else None in
  match b, deadline with
  | Responds t r, Some d => if t <? d then ret r else fire_abort
  | Responds t r, None => ret r
  | Fails t e, Some d => if t <? d then throw e else fire_abort
  | Fails t e, None => throw e
  | Silent, Some d => fire_abort
  | Silent, None => await Pending
  end.

(** [response.json()]: the promise of the parsed body. *)
Definition Response_json (r : Response) : M (Settled jsval) :=
  log EvJson ;;
  ret (resp_json r).

(** [v.k] as an expression: reading a property of [null] or [undefined]
    throws [TypeError] (V8's wording of the message). *)
Definition member (v : jsval) (k : string) : M jsval :=
  if nullish v then
    throw (ThrownError "TypeError"
             ("Cannot read properties of " ++ ToString v ++ " (reading '" ++ k ++ "')"))
  else ret (get_prop v k).

End Platform.

(* ================================================================== *)
(** ** The client class *)
(* ================================================================== *)

(** [interface SchedulifyXConfig] *)
Record SchedulifyXConfig : Type := {
  cfg_apiKey : string;
  cfg_baseUrl : option string;
  cfg_timeout : option Z
}.

(** The private fields of [class SchedulifyX]. *)
Record SchedulifyX : Type := {
  apiKey : string;
  baseUrl : string;
  timeout : Z
}.

Definition default_baseUrl : string := "https://api.schedulifyx.com".
Definition default_timeout : Z := 30000.

(** [config.baseUrl || 'https://api.schedulifyx.com'] *)
Definition baseUrl_or_default (b : option string) : string :=
  match b with
  | Some s => if truthy (JStr s) then s else default_baseUrl
  | None => default_baseUrl
  end.

(** [config.timeout || 30000] *)
Definition timeout_or_default (t : option Z) : Z :=
  match t with
  | Some n => if truthy (JNum n) then n else default_timeout
  | None => default_timeout
  end.

(** [constructor(config: SchedulifyXConfig | string)] *)
Definition constructor (config : SchedulifyXConfig + string) : SchedulifyX :=
  match config with
  | inr key =>
      {| apiKey := key; baseUrl := default_baseUrl; timeout := default_timeout |}
  | inl c =>
      {| apiKey := cfg_apiKey c;
         baseUrl := baseUrl_or_default (cfg_baseUrl c);
         timeout := timeout_or_default (cfg_timeout c) |}
  end.

(** A value of [string | number | boolean | undefined]. *)
Inductive QueryValue : Type :=
| QString (s : string)
| QNumber (n : Z)
| QBoolean (b : bool)
| QUndefined.

Definition QueryValue_jsval (v : QueryValue) : jsval :=
  match v with
  | QString s => JStr s
  | QNumber n => JNum n
  | QBoolean b => JBool b
  | QUndefined => JUndefined
  end.

(** [Record<string, string | number | boolean | undefined>] as
    [Object.entries] lists it. *)
Definition QueryParams : Type := list (string * QueryValue).

Definition set_search (url : URL) (l : list (string * string)) : URL :=
  {| url_head := url_head url; url_search := l; url_hash := url_hash url |}.

(** The body of the [forEach] callback. *)
Definition add_query (url : URL) (entry : string * QueryValue) : URL :=
  match snd entry with
  | QUndefined => url
  | value =>
      set_search url
        (URLSearchParams.set (fst entry) (ToString (QueryValue_jsval value))
           (url_search url))
  end.

Section Client.
Context {host : Host}.

(** Lines 190-198: the URL a call is sent to; [None] when [new URL]
    throws. *)
Definition build_url (this : SchedulifyX) (endpoint : string)
    (queryParams : option QueryParams) : option URL :=
  match URL_parse (baseUrl this ++ endpoint) with
  | None => None
  | Some url =>
      Some (match queryParams with
            | Some entries => fold_left add_query entries url
            | None => url
            end)
  end.

Definition request_headers (this : SchedulifyX) : list (string * string) :=
  [("Authorization", "Bearer " ++ apiKey this);
   ("Content-Type", "application/json")].

(** [body ? JSON.stringify(body) : undefined] *)
Definition request_body (body : jsval) : option BodyInit :=
  if truthy body then option_map BodyText (JSON_stringify body) else None.

Definition request_init (this : SchedulifyX) (method : string) (body : jsval)
  : RequestInit :=
  {| method := method;
     headers := request_headers this;
     body := request_body body;
     signal := true |}.

(** [new SchedulifyXError(message, code, status, details)] as an
    expression: [super(message)] throws when [String(message)] does,
    which a message taken from a parsed body can make it do. *)
Definition construct_SchedulifyXError (message code : jsval) (status : Z)
    (details : jsval) : M SchedulifyXError :=
  if String_throws message then throw conversion_TypeError
  else ret (new_SchedulifyXError message code status details).

(** The [throw new SchedulifyXError(...)] of a response that is not ok;
    the arguments are evaluated left to right, then the error is
    constructed. *)
Definition throw_api_error {A} (response : Response) (errorData : jsval) : M A :=
  message <- (e <- member errorData "error" ;; ret (opt_member e "message")) ;;
  code <- (e <- member errorData "error" ;; ret (opt_member e "code")) ;;
  details <- (e <- member errorData "error" ;; ret (opt_member e "details")) ;;
  error <- construct_SchedulifyXError
             (or_else message
                (JStr ("HTTP " ++ Number_toString (resp_status response))))
             (or_else code (JStr "http_error"))
             (resp_status response)
             details ;;
  throw (ThrownSX error).

(** The [try] block.  Its value is what [return response.json()] returns:
    the promise, not awaited. *)
Definition request_try (this : SchedulifyX) (method : string) (url : URL)
    (body : jsval) : M (Settled jsval) :=
  response <- fetch (URL_href url) (request_init this method body) ;;
  clearTimeout ;;
  if negb (ok response) then
    errorData <- (p <- Response_json response ;;
                  await (promise_catch p (fun _ => JObj []))) ;;
    throw_api_error response errorData
  else
    Response_json response.

(** The [catch] block. *)
Definition request_catch {A} (error : Thrown) : M A :=
  clearTimeout ;;
  match error with
  | ThrownSX _ => throw error
  | ThrownError name message =>
      if (name =? "AbortError")%string then
        throw (ThrownSX (new_SchedulifyXError
                           (JStr "Request timeout") (JStr "timeout") 408 JUndefined))
      else
        throw (ThrownSX (new_SchedulifyXError
                           (JStr message) (JStr "network_error") 0 JUndefined))
  | ThrownOther _ =>
      throw (ThrownSX (new_SchedulifyXError
                         (JStr "Network error") (JStr "network_error") 0 JUndefined))
  end.

(** [private async request<T>(method, endpoint, body?, queryParams?)].
    The promise the [try] block returns is adopted by the promise of the
    async function, outside the [try]. *)
Definition request (this : SchedulifyX) (method endpoint : string)
    (body : jsval) (queryParams : option QueryParams) : M jsval :=
  match build_url this endpoint queryParams with
  | None => throw (ThrownError "TypeError" "Invalid URL")
  | Some url =>
      setTimeout_abort (timeout this) ;;
      p <- try_catch (request_try this method url body) request_catch ;;
      await p
  end.

End Client.

(* ================================================================== *)
(** ** Call-sites *)
(* ================================================================== *)

(** An optional argument given as a query value. *)
Definition opt_number (n : option Z) : QueryValue :=
  match n with
  | Some k => QNumber k
  | None => QUndefined
  end.

(** An optional string given as a property value. *)
Definition opt_string (s : option string) : jsval :=
  match s with
  | Some t => JStr t
  | None => JUndefined
  end.

Section CallSites.
Context {host : Host}.
Variable this : SchedulifyX.

(** *** posts *)
Definition posts_list (params : option QueryParams) : M jsval :=
  request this "GET" "/posts" JUndefined params.
Definition posts_get (postId : string) : M jsval :=
  request this "GET" ("/posts/" ++ postId) JUndefined None.
Definition posts_create (data : jsval) : M jsval :=
  request this "POST" "/posts" data None.
Definition posts_update (postId : string) (data : jsval) : M jsval :=
  request this "PATCH" ("/posts/" ++ postId) data None.
Definition posts_delete (postId : string) : M jsval :=
  request this "DELETE" ("/posts/" ++ postId) JUndefined None.
Definition posts_publish (postId : string) : M jsval :=
  request this "POST" ("/posts/" ++ postId ++ "/publish") JUndefined None.

(** *** accounts *)
Definition accounts_list (params : option QueryParams) : M jsval :=
  request this "GET" "/accounts" JUndefined params.
Definition accounts_get (accountId : string) : M jsval :=
  request this "GET" ("/accounts/" ++ accountId) JUndefined None.
Definition accounts_getPinterestBoards (accountId : string) : M jsval :=
  request this "GET" ("/accounts/" ++ accountId ++ "/pinterest-boards") JUndefined None.

(** *** analytics *)
Definition analytics_overview : M jsval :=
  request this "GET" "/analytics/overview" JUndefined None.
Definition analytics_forAccount (accountId : string) (params : option QueryParams)
  : M jsval :=
  request this "GET" ("/analytics/account/" ++ accountId) JUndefined params.
Definition analytics_list (params : option QueryParams) : M jsval :=
  request this "GET" "/analytics" JUndefined params.

(** *** media *)
Definition media_getUploadUrl (data : jsval) : M jsval :=
  request this "POST" "/media/upload-url" data None.

(** [const { data } = v]: destructuring [null] or [undefined] throws. *)
Definition destructure (v : jsval) (k : string) : M jsval :=
  if nullish v then
    throw (ThrownError "TypeError"
             ("Cannot destructure property '" ++ k ++ "' of '" ++ ToString v
              ++ "' as it is " ++ ToString v ++ "."))
  else ret (get_prop v k).

(** The [fetch] options of the direct upload. *)
Definition upload_init (file : Blob) (contentType : string) : RequestInit :=
  {| method := "PUT";
     headers := [("Content-Type", contentType)];
     body := Some (BodyBlob file);
     signal := false |}.

(** [media.upload].  [fetch] is called with [data.uploadUrl] as it is;
    the event records the text of that argument, and what the fetch makes
    of it, a rejection for an argument it cannot use included, is the
    network's next behaviour. *)
Definition media_upload (file : Blob) (filename contentType : string) : M jsval :=
  r <- media_getUploadUrl
         (JObj [("filename", JStr filename); ("contentType", JStr contentType)]) ;;
  data <- destructure r "data" ;;
  uploadUrl <- member data "uploadUrl" ;;
  fetch (ToString uploadUrl) (upload_init file contentType) ;;
  member data "mediaUrl".

(** *** usage *)
Definition usage : M jsval :=
  request this "GET" "/usage" JUndefined None.

(** *** queue *)
Definition queue_getSlots (accountId : string) : M jsval :=
  request this "GET" "/queue/slots" JUndefined
    (Some [("accountId", QString accountId)]).
Definition queue_setSlots (data : jsval) : M jsval :=
  request this "PUT" "/queue/slots" data None.
Definition queue_deleteSlots (accountId : string) : M jsval :=
  request this "DELETE" "/queue/slots" JUndefined
    (Some [("accountId", QString accountId)]).
Definition queue_getNextSlot (accountId : string) : M jsval :=
  request this "GET" "/queue/next-slot" JUndefined
    (Some [("accountId", QString accountId)]).
Definition queue_preview (accountId : string) (count : option Z) : M jsval :=
  request this "GET" "/queue/preview" JUndefined
    (Some [("accountId", QString accountId); ("count", opt_number count)]).
Definition queue_getAll : M jsval :=
  request this "GET" "/queue/all" JUndefined None.

(** *** webhooks *)
Definition webhooks_list : M jsval :=
  request this "GET" "/webhooks" JUndefined None.
Definition webhooks_get (webhookId : string) : M jsval :=
  request this "GET" ("/webhooks/" ++ webhookId) JUndefined None.
Definition webhooks_create (data : jsval) : M jsval :=
  request this "POST" "/webhooks" data None.
Definition webhooks_update (webhookId : string) (data : jsval) : M jsval :=
  request this "PATCH" ("/webhooks/" ++ webhookId) data None.
Definition webhooks_delete (webhookId : string) : M jsval :=
  request this "DELETE" ("/webhooks/" ++ webhookId) JUndefined None.
Definition webhooks_rotateSecret (webhookId : string) : M jsval :=
  request this "POST" ("/webhooks/" ++ webhookId ++ "/rotate-secret") JUndefined None.
Definition webhooks_test (webhookId : string) (eventType : option string) : M jsval :=
  request this "POST" ("/webhooks/" ++ webhookId ++ "/test")
    (JObj [("eventType", opt_string eventType)]) None.
Definition webhooks_getEvents (webhookId : string) (params : option QueryParams)
  : M jsval :=
  request this "GET" ("/webhooks/" ++ webhookId ++ "/events") JUndefined params.
Definition webhooks_getEventTypes : M jsval :=
  request this "GET" "/webhooks/events/types" JUndefined None.

(** *** tenants *)
Definition tenants_list (params : option QueryParams) : M jsval :=
  request this "GET" "/tenants" JUndefined params.
Definition tenants_get (tenantId : string) : M jsval :=
  request this "GET" ("/tenants/" ++ tenantId) JUndefined None.
Definition tenants_create (data : jsval) : M jsval :=
  request this "POST" "/tenants" data None.
Definition tenants_update (tenantId : string) (data : jsval) : M jsval :=
  request this "PATCH" ("/tenants/" ++ tenantId) data None.
Definition tenants_delete (tenantId : string) : M jsval :=
  request this "DELETE" ("/tenants/" ++ tenantId) JUndefined None.
Definition tenants_getConnectUrl (tenantId platform : string) : M jsval :=
  request this "GET" ("/tenants/" ++ tenantId ++ "/connect/" ++ platform) JUndefined None.
Definition tenants_listAccounts (tenantId : string) : M jsval :=
  request this "GET" ("/tenants/" ++ tenantId ++ "/accounts") JUndefined None.
Definition tenants_disconnectAccount (tenantId accountId : string) : M jsval :=
  request this "DELETE" ("/tenants/" ++ tenantId ++ "/accounts/" ++ accountId)
    JUndefined None.
Definition tenants_connectBluesky (tenantId : string) (data : jsval) : M jsval :=
  request this "POST" ("/tenants/" ++ tenantId ++ "/connect/bluesky") data None.
Definition tenants_connectMastodon (tenantId : string) (data : jsval) : M jsval :=
  request this "POST" ("/tenants/" ++ tenantId ++ "/connect/mastodon") data None.

(** *** The endpoint surface

    One constructor per method that maps onto a remote operation, with
    the arguments of the method. *)
Inductive ApiCall : Type :=
| PostsList (params : option QueryParams)
| PostsGet (postId : string)
| PostsCreate (data : jsval)
| PostsUpdate (postId : string) (data : jsval)
| PostsDelete (postId : string)
| PostsPublish (postId : string)
| AccountsList (params : option QueryParams)
| AccountsGet (accountId : string)
| AccountsGetPinterestBoards (accountId : string)
| AnalyticsOverview
| AnalyticsForAccount (accountId : string) (params : option QueryParams)
| AnalyticsList (params : option QueryParams)
| MediaGetUploadUrl (data : jsval)
| Usage
| QueueGetSlots (accountId : string)
| QueueSetSlots (data : jsval)
| QueueDeleteSlots (accountId : string)
| QueueGetNextSlot (accountId : string)
| QueuePreview (accountId : string) (count : option Z)
| QueueGetAll
| WebhooksList
| WebhooksGet (webhookId : string)
| WebhooksCreate (data : jsval)
| WebhooksUpdate (webhookId : string) (data : jsval)
| WebhooksDelete (webhookId : string)
| WebhooksRotateSecret (webhookId : string)
| WebhooksTest (webhookId : string) (eventType : option string)
| WebhooksGetEvents (webhookId : string) (params : option QueryParams)
| WebhooksGetEventTypes
| TenantsList (params : option QueryParams)
| TenantsGet (tenantId : string)
| TenantsCreate (data : jsval)
| TenantsUpdate (tenantId : string) (data : jsval)
| TenantsDelete (tenantId : string)
| TenantsGetConnectUrl (tenantId platform : string)
| TenantsListAccounts (tenantId : string)
| TenantsDisconnectAccount (tenantId accountId : string)
| TenantsConnectBluesky (tenantId : string) (data : jsval)
| TenantsConnectMastodon (tenantId : string) (data : jsval).

(** Calling the method a constructor stands for. *)
Definition invoke (c : ApiCall) : M jsval :=
  match c with
  | PostsList params => posts_list params
  | PostsGet postId => posts_get postId
  | PostsCreate data => posts_create data
  | PostsUpdate postId data => posts_update postId data
  | PostsDelete postId => posts_delete postId
  | PostsPublish postId => posts_publish postId
  | AccountsList params => accounts_list params
  | AccountsGet accountId => accounts_get accountId
  | AccountsGetPinterestBoards accountId => accounts_getPinterestBoards accountId
  | AnalyticsOverview => analytics_overview
  | AnalyticsForAccount accountId params => analytics_forAccount accountId params
  | AnalyticsList params => analytics_list params
  | MediaGetUploadUrl data => media_getUploadUrl data
  | Usage => usage
  | QueueGetSlots accountId => queue_getSlots accountId
  | QueueSetSlots data => queue_setSlots data
  | QueueDeleteSlots accountId => queue_deleteSlots accountId
  | QueueGetNextSlot accountId => queue_getNextSlot accountId
  | QueuePreview accountId count => queue_preview accountId count
  | QueueGetAll => queue_getAll
  | WebhooksList => webhooks_list
  | WebhooksGet webhookId => webhooks_get webhookId
  | WebhooksCreate data => webhooks_create data
  | WebhooksUpdate webhookId data => webhooks_update webhookId data
  | WebhooksDelete webhookId => webhooks_delete webhookId
  | WebhooksRotateSecret webhookId => webhooks_rotateSecret webhookId
  | WebhooksTest webhookId eventType => webhooks_test webhookId eventType
  | WebhooksGetEvents webhookId params => webhooks_getEvents webhookId params
  | WebhooksGetEventTypes => webhooks_getEventTypes
  | TenantsList params => tenants_list params
  | TenantsGet tenantId => tenants_get tenantId
  | TenantsCreate data => tenants_create data
  | TenantsUpdate tenantId data => tenants_update tenantId data
  | TenantsDelete tenantId => tenants_delete tenantId
  | TenantsGetConnectUrl tenantId platform => tenants_getConnectUrl tenantId platform
  | TenantsListAccounts tenantId => tenants_listAccounts tenantId
  | TenantsDisconnectAccount tenantId accountId =>
      tenants_disconnectAccount tenantId accountId
  | TenantsConnectBluesky tenantId data => tenants_connectBluesky tenantId data
  | TenantsConnectMastodon tenantId data => tenants_connectMastodon tenantId data
  end.

(** The arguments [invoke c] hands to the dispatcher. *)
Definition dispatch_args (c : ApiCall)
  : string * string * jsval * option QueryParams :=
  match c with
  | PostsList params => ("GET", "/posts", JUndefined, params)
  | PostsGet postId => ("GET", "/posts/" ++ postId, JUndefined, None)
  | PostsCreate data => ("POST", "/posts", data, None)
  | PostsUpdate postId data => ("PATCH", "/posts/" ++ postId, data, None)
  | PostsDelete postId => ("DELETE", "/posts/" ++ postId, JUndefined, None)
  | PostsPublish postId => ("POST", "/posts/" ++ postId ++ "/publish", JUndefined, None)
  | AccountsList params => ("GET", "/accounts", JUndefined, params)
  | AccountsGet accountId => ("GET", "/accounts/" ++ accountId, JUndefined, None)
  | AccountsGetPinterestBoards accountId =>
      ("GET", "/accounts/" ++ accountId ++ "/pinterest-boards", JUndefined, None)
  | AnalyticsOverview => ("GET", "/analytics/overview", JUndefined, None)
  | AnalyticsForAccount accountId params =>
      ("GET", "/analytics/account/" ++ accountId, JUndefined, params)
  | AnalyticsList params => ("GET", "/analytics", JUndefined, params)
  | MediaGetUploadUrl data => ("POST", "/media/upload-url", data, None)
  | Usage => ("GET", "/usage", JUndefined, None)
  | QueueGetSlots accountId =>
      ("GET", "/queue/slots", JUndefined, Some [("accountId", QString accountId)])
  | QueueSetSlots data => ("PUT", "/queue/slots", data, None)
  | QueueDeleteSlots accountId =>
      ("DELETE", "/queue/slots", JUndefined, Some [("accountId", QString accountId)])
  | QueueGetNextSlot accountId =>
      ("GET", "/queue/next-slot", JUndefined, Some [("accountId", QString accountId)])
  | QueuePreview accountId count =>
      ("GET", "/queue/preview", JUndefined,
       Some [("accountId", QString accountId); ("count", opt_number count)])
  | QueueGetAll => ("GET", "/queue/all", JUndefined, None)
  | WebhooksList => ("GET", "/webhooks", JUndefined, None)
  | WebhooksGet webhookId => ("GET", "/webhooks/" ++ webhookId, JUndefined, None)
  | WebhooksCreate data => ("POST", "/webhooks", data, None)
  | WebhooksUpdate webhookId data => ("PATCH", "/webhooks/" ++ webhookId, data, None)
  | WebhooksDelete webhookId => ("DELETE", "/webhooks/" ++ webhookId, JUndefined, None)
  | WebhooksRotateSecret webhookId =>
      ("POST", "/webhooks/" ++ webhookId ++ "/rotate-secret", JUndefined, None)
  | WebhooksTest webhookId eventType =>
      ("POST", "/webhooks/" ++ webhookId ++ "/test",
       JObj [("eventType", opt_string eventType)], None)
  | WebhooksGetEvents webhookId params =>
      ("GET", "/webhooks/" ++ webhookId ++ "/events", JUndefined, params)
  | WebhooksGetEventTypes => ("GET", "/webhooks/events/types", JUndefined, None)
  | TenantsList params => ("GET", "/tenants", JUndefined, params)
  | TenantsGet tenantId => ("GET", "/tenants/" ++ tenantId, JUndefined, None)
  | TenantsCreate data => ("POST", "/tenants", data, None)
  | TenantsUpdate tenantId data => ("PATCH", "/tenants/" ++ tenantId, data, None)
  | TenantsDelete tenantId => ("DELETE", "/tenants/" ++ tenantId, JUndefined, None)
  | TenantsGetConnectUrl tenantId platform =>
      ("GET", "/tenants/" ++ tenantId ++ "/connect/" ++ platform, JUndefined, None)
  | TenantsListAccounts tenantId =>
      ("GET", "/tenants/" ++ tenantId ++ "/accounts", JUndefined, None)
  | TenantsDisconnectAccount tenantId accountId =>
      ("DELETE", "/tenants/" ++ tenantId ++ "/accounts/" ++ accountId, JUndefined, None)
  | TenantsConnectBluesky tenantId data =>
      ("POST", "/tenants/" ++ tenantId ++ "/connect/bluesky", data, None)
  | TenantsConnectMastodon tenantId data =>
      ("POST", "/tenants/" ++ tenantId ++ "/connect/mastodon", data, None)
  end.

End CallSites.

(* ================================================================== *)
(** ** A concrete host *)
(* ================================================================== *)

Module PlainHost.

(** Splits at the first [c]: the text before it, and the text after it
    when [c] occurs. *)
Fixpoint split_first (c : ascii) (s : string) : string * option string :=
  match s with
  | EmptyString => (EmptyString, None)
  | String a rest =>
      if Ascii.eqb a c then (EmptyString, Some rest)
      else let (before, after) := split_first c rest in (String a before, after)
  end.

(** The pieces of [s] between occurrences of [c]. *)
Fixpoint split_all (c : ascii) (s : string) : list string :=
  match s with
  | EmptyString => [EmptyString]
  | String a rest =>
      if Ascii.eqb a c then EmptyString :: split_all c rest
      else match split_all c rest with
           | piece :: pieces => String a piece :: pieces
           | [] => [String a EmptyString]
           end
  end.

(** One [name=value] piece of a query; a piece with no [=] has the empty
    value. *)
Definition parse_pair (piece : string) : string * string :=
  match split_first "="%char piece with
  | (k, Some v) => (k, v)
  | (k, None) => (k, EmptyString)
  end.

Definition parse_query (q : string) : list (string * string) :=
  map parse_pair
    (filter (fun piece => negb (piece =? "")%string) (split_all "&"%char q)).

Definition has_prefix (p s : string) : bool := String.prefix p s.

(** [new URL(s)] on absolute http(s) URLs whose query needs no
    percent-decoding. *)
Definition parse (s : string) : option URL :=
  if has_prefix "https://" s || has_prefix "http://" s then
    let (before_hash, hash) := split_first "#"%char s in
    let (head, query) := split_first "?"%char before_hash in
    Some {| url_head := head;
            url_search := match query with
                          | Some q => parse_query q
                          | None => []
                          end;
            url_hash := match hash with
                        | Some h => h
                        | None => EmptyString
                        end |}
  else None.

Definition pair_text (kv : string * string) : string :=
  fst kv ++ "=" ++ snd kv.

(** [url.toString()] on URLs whose query needs no percent-encoding. *)
Definition href (u : URL) : string :=
  url_head u
  ++ match url_search u with
     | [] => EmptyString
     | l => "?" ++ String.concat "&" (map pair_text l)
     end
  ++ (if (url_hash u =? "")%string then EmptyString else "#" ++ url_hash u).

(** Node's timers: a delay outside [1 .. 2^31-1] is set to 1. *)
Definition delay (ms : Z) : Z :=
  if (1 <=? ms) && (ms <=? 2147483647) then ms else 1.

End PlainHost.

#[export] Instance plain_host : Host := {
  URL_parse := PlainHost.parse;
  URL_href := PlainHost.href;
  timer_delay := PlainHost.delay
}.

(** The world before a call: nothing armed, nothing traced. *)
Definition fresh_world (net : list FetchBehaviour) : World :=
  {| network := net; abort_timer := None; trace := [] |}.

Definition json_response (st : Z) (v : jsval) : Response :=
  {| resp_status := st; resp_json := Fulfilled v |}.

(** A response whose body is not JSON text: [json()] rejects with a
    [SyntaxError]. *)
Definition garbled_response (st : Z) : Response :=
  {| resp_status := st;
     resp_json := Rejected (ThrownError "SyntaxError" "Unexpected token < in JSON at position 0") |}.


(** A presigned target as the service answers it. *)
Definition presigned : jsval :=
  JObj [("data", JObj [("uploadUrl", JStr "https://uploads.example.com/put/abc");
                       ("mediaUrl", JStr "https://cdn.example.com/abc.png");
                       ("expiresIn", JNum 3600)])].

(** What the network holds for the next fetch. *)
Definition next_fetch (w : World) : FetchBehaviour :=
  match network w with
  | [] => Silent
  | b :: _ => b
  end.

(** The network is not done with the fetch by the time a timer of delay
    [d] runs. *)
Definition overdue (b : FetchBehaviour) (d : Z) : bool :=
  match b with
  | Responds t _ | Fails t _ => d <=? t
  | Silent => true
  end.

(** The world after the events [evs] of a call that made one fetch and
    left no timer armed. *)
Definition after_fetch (w : World) (evs : list event) : World :=
  {| network := tl (network w); abort_timer := None; trace := trace w ++ evs |}.

(** Does the event reach the network? *)
Definition touches_network (e : event) : bool :=
  match e with
  | EvFetch _ _ | EvJson => true
  | EvSetTimeout _ | EvAbort | EvClearTimeout => false
  end.

Section RunShapes.
Context {host : Host}.

(** The events of a call that got a response and read its body. *)
Definition answered_events (this : SchedulifyX) (method : string) (url : URL)
    (body : jsval) : list event :=
  [EvSetTimeout (timeout this);
   EvFetch (URL_href url) (request_init this method body);
   EvClearTimeout; EvJson].

(** What [errorData] is for a response that is not ok: the parsed body,
    or the empty object when parsing rejects. *)
Definition errorData_of (r : Response) : Settled jsval :=
  promise_catch (resp_json r) (fun _ => JObj []).

(** The message argument of the error for a parsed error body
    [errorData] that is not [null]. *)
Definition api_message (r : Response) (errorData : jsval) : jsval :=
  or_else (opt_member (get_prop errorData "error") "message")
    (JStr ("HTTP " ++ Number_toString (resp_status r))).

(** The error thrown for a parsed error body [errorData] that is not
    [null] and whose message [String] converts. *)
Definition api_error (r : Response) (errorData : jsval) : SchedulifyXError :=
  let error := get_prop errorData "error" in
  new_SchedulifyXError
    (or_else (opt_member error "message")
       (JStr ("HTTP " ++ Number_toString (resp_status r))))
    (or_else (opt_member error "code") (JStr "http_error"))
    (resp_status r)
    (opt_member error "details").

(** The world after the direct upload was started from [w]. *)
Definition after_put (w : World) (target : string) (file : Blob)
    (contentType : string) : World :=
  {| network := tl (network w); abort_timer := abort_timer w;
     trace := trace w ++ [EvFetch target (upload_init file contentType)] |}.

(** How a fetch with no signal settles: as the network has it. *)
Definition unguarded_outcome {A} (b : FetchBehaviour) (a : A) : Settled A :=
  match b with
  | Responds _ _ => Fulfilled a
  | Fails _ e => Rejected e
  | Silent => Pending
  end.

End RunShapes.

(** The object [{ filename, contentType }]. *)
Definition upload_request (filename contentType : string) : jsval :=
  JObj [("filename", JStr filename); ("contentType", JStr contentType)].

(** *** How a call settles, by what the network does

    The outcome of [request] read off its [try] and [catch] blocks, one
    case per behaviour of the network; [request_outcome] below proves that
    the dispatcher settles so. *)

(** [new SchedulifyXError('Request timeout', 'timeout', 408)] *)
Definition timeout_error : SchedulifyXError :=
  new_SchedulifyXError (JStr "Request timeout") (JStr "timeout") 408 JUndefined.

(** What the [catch] block throws for the [error] it caught. *)
Definition caught (error : Thrown) : Thrown :=
  match error with
  | ThrownSX _ => error
  | ThrownError name message =>
      if (name =? "AbortError")%string then ThrownSX timeout_error
      else ThrownSX (new_SchedulifyXError
                       (JStr message) (JStr "network_error") 0 JUndefined)
  | ThrownOther _ =>
      ThrownSX (new_SchedulifyXError
                  (JStr "Network error") (JStr "network_error") 0 JUndefined)
  end.

(** The [TypeError] of reading [v.k] on a [v] that is [null] or
    [undefined]. *)
Definition member_TypeError (v : jsval) (k : string) : Thrown :=
  ThrownError "TypeError"
    ("Cannot read properties of " ++ ToString v ++ " (reading '" ++ k ++ "')").

(** How the [throw new SchedulifyXError(...)] statement ends for an
    [errorData]: reading [errorData.error] throws on [null], the
    constructor throws on a message that [String] cannot convert, and
    either [TypeError] is caught like any other. *)
Definition error_outcome (r : Response) (errorData : jsval) : Thrown :=
  if nullish errorData then caught (member_TypeError errorData "error")
  else if String_throws (api_message r errorData) then caught conversion_TypeError
  else ThrownSX (api_error r errorData).

(** How a call settles on a response that came in time. *)
Definition answered_outcome (r : Response) : Settled jsval :=
  if ok r then resp_json r
  else match resp_json r with
       | Fulfilled errorData => Rejected (error_outcome r errorData)
       | Rejected _ => Rejected (error_outcome r (JObj []))
       | Pending => Pending
       end.

(** How a call settles when a timer of delay [d] guards its fetch. *)
Definition call_outcome (d : Z) (b : FetchBehaviour) : Settled jsval :=
  match b with
  | Responds t r =>
      if t <? d then answered_outcome r else Rejected (ThrownSX timeout_error)
  | Fails t e =>
      if t <? d then Rejected (caught e) else Rejected (ThrownSX timeout_error)
  | Silent => Rejected (ThrownSX timeout_error)
  end.

(** After its fetch is started, a call only reads the body, is aborted,
    and clears its timer. *)
Definition settles_only (e : event) : bool :=
  match e with
  | EvAbort | EvClearTimeout | EvJson => true
  | EvSetTimeout _ | EvFetch _ _ => false
  end.

(** A value the platform throws is no instance of the SDK's error
    class. *)
Definition from_platform (e : Thrown) : bool :=
  match e with
  | ThrownSX _ => false
  | ThrownError _ _ | ThrownOther _ => true
  end.

(** A behaviour of the network whose rejections all come from the
    platform. *)
Definition platform_behaviour (b : FetchBehaviour) : bool :=
  match b with
  | Responds _ r =>
      match resp_json r with
      | Rejected e => from_platform e
      | Fulfilled _ | Pending => true
      end
  | Fails _ e => from_platform e
  | Silent => true
  end.

(** The pairs the [forEach] writes: the entries with a defined value, in
    entry order, each value as a string. *)
Definition defined_pairs (entries : QueryParams) : list (string * string) :=
  flat_map (fun entry => match snd entry with
                         | QUndefined => []
                         | value => [(fst entry, ToString (QueryValue_jsval value))]
                         end) entries.

(* ================================================================== *)
(** ** Running the dispatcher *)
(* ================================================================== *)

Ltac unfold_async :=
  unfold request, request_try, request_catch, throw_api_error,
    construct_SchedulifyXError, fetch, setTimeout_abort, clearTimeout, fire_abort, Response_json, member,
    destructure, next_behaviour, get_timer, set_timer, log, await, throw,
    try_catch, bind, ret, next_fetch, after_fetch, after_put in *.

Ltac tidy_trace := cbn [network abort_timer trace tl fst snd];
  repeat rewrite <- app_assoc; cbn [app].

(** Splits on whether the message of the error converts. *)
Ltac split_conversion :=
  try match goal with
      | |- context [String_throws ?m] => destruct (String_throws m); cbn
      end.

(** Enters [request] up to the [fetch] of the [try] block. *)
Ltac enter_request Hurl :=
  unfold request; rewrite Hurl;
  unfold bind at 1; unfold setTimeout_abort;
  unfold bind at 1, log at 1, set_timer at 1; cbn [network abort_timer trace];
  unfold bind at 1, try_catch, request_try; unfold bind at 1.

Section Runs.
Context {host : Host}.

(** A fetch with the signal attached, while a timer of delay [d] is
    armed and the network is overdue: the timer aborts it. *)
Lemma fetch_overdue url init w d :
  signal init = true ->
  abort_timer w = Some d ->
  overdue (next_fetch w) d = true ->
  fetch url init w =
    (Rejected AbortError, after_fetch w [EvFetch url init; EvAbort]).
Proof.
  intros Hsig Htimer Hlate. unfold_async. cbn [network abort_timer trace].
  rewrite Hsig. destruct (network w) as [|b rest]; cbn.
  - rewrite Htimer. cbn. tidy_trace. reflexivity.
  - rewrite Htimer. destruct b as [t r|t e|]; cbn in Hlate |- *.
    + assert ((t <? d) = false) as -> by lia. cbn. tidy_trace. reflexivity.
    + assert ((t <? d) = false) as -> by lia. cbn. tidy_trace. reflexivity.
    + tidy_trace. reflexivity.
Qed.

(** The same fetch when the network answers strictly before the timer. *)
Lemma fetch_in_time url init w d t r :
  abort_timer w = Some d ->
  next_fetch w = Responds t r ->
  t < d ->
  fetch url init w =
    (Fulfilled r,
     {| network := tl (network w); abort_timer := Some d;
        trace := trace w ++ [EvFetch url init] |}).
Proof.
  intros Htimer Hnext Hlt. unfold_async. cbn [network abort_timer trace].
  destruct (network w) as [|b rest]; [discriminate|]. cbn in Hnext. subst b.
  cbn. rewrite Htimer.
  destruct (signal init); cbn; [|reflexivity].
  assert ((t <? d) = true) as -> by lia. reflexivity.
Qed.

(** A fetch with no signal follows the network. *)
Lemma fetch_unguarded url init w :
  signal init = false ->
  fetch url init w =
    (match next_fetch w with
     | Responds _ r => Fulfilled r
     | Fails _ e => Rejected e
     | Silent => Pending
     end,
     {| network := tl (network w); abort_timer := abort_timer w;
        trace := trace w ++ [EvFetch url init] |}).
Proof.
  intros Hsig. unfold_async. cbn [network abort_timer trace]. rewrite Hsig.
  destruct (network w) as [|[t r|t e|] rest]; cbn; reflexivity.
Qed.

(** A response in time with a success status: the call settles as
    [response.json()] does, whatever that is. *)
Lemma request_ok_run this method endpoint body queryParams url w t r :
  build_url this endpoint queryParams = Some url ->
  next_fetch w = Responds t r ->
  t < timer_delay (timeout this) ->
  ok r = true ->
  request this method endpoint body queryParams w =
    (resp_json r, after_fetch w (answered_events this method url body)).
Proof.
  intros Hurl Hnext Hlt Hok. enter_request Hurl.
  erewrite fetch_in_time; [| reflexivity | exact Hnext | exact Hlt].
  rewrite Hok. unfold_async. cbn. tidy_trace. reflexivity.
Qed.

(** A response in time with a failure status whose [errorData] is
    neither [null] nor pending and whose message converts: the call
    rejects with [api_error]. *)
Lemma request_not_ok_run this method endpoint body queryParams url w t r errorData :
  build_url this endpoint queryParams = Some url ->
  next_fetch w = Responds t r ->
  t < timer_delay (timeout this) ->
  ok r = false ->
  errorData_of r = Fulfilled errorData ->
  nullish errorData = false ->
  String_throws (api_message r errorData) = false ->
  request this method endpoint body queryParams w =
    (Rejected (ThrownSX (api_error r errorData)),
     after_fetch w (answered_events this method url body ++ [EvClearTimeout])).
Proof.
  intros Hurl Hnext Hlt Hok Hdata Hnn Hconv. enter_request Hurl.
  erewrite fetch_in_time; [| reflexivity | exact Hnext | exact Hlt].
  rewrite Hok. unfold errorData_of in Hdata. unfold api_message in Hconv.
  unfold_async. cbn. rewrite Hdata, Hnn. cbn. cbn in Hconv. rewrite Hconv.
  cbn. tidy_trace. reflexivity.
Qed.

(** No answer by the time the timer runs: the fetch is aborted and the
    call rejects with the timeout error. *)
Lemma request_overdue_run this method endpoint body queryParams url w :
  build_url this endpoint queryParams = Some url ->
  overdue (next_fetch w) (timer_delay (timeout this)) = true ->
  request this method endpoint body queryParams w =
    (Rejected (ThrownSX (new_SchedulifyXError
                           (JStr "Request timeout") (JStr "timeout") 408 JUndefined)),
     after_fetch w
       [EvSetTimeout (timeout this);
        EvFetch (URL_href url) (request_init this method body);
        EvAbort; EvClearTimeout]).
Proof.
  intros Hurl Hlate. enter_request Hurl.
  erewrite fetch_overdue; [| reflexivity | reflexivity | exact Hlate].
  unfold_async. cbn. tidy_trace. reflexivity.
Qed.

(** Every call whose URL is valid arms the timer and starts the fetch
    with [request_init]. *)
Lemma request_sends this method endpoint body queryParams url w :
  build_url this endpoint queryParams = Some url ->
  exists later,
    trace (snd (request this method endpoint body queryParams w)) =
      (trace w ++ EvSetTimeout (timeout this)
               :: EvFetch (URL_href url) (request_init this method body)
               :: later)%list.
Proof.
  intros Hurl. unfold request. rewrite Hurl. unfold_async.
  cbn [network abort_timer trace signal request_init].
  destruct (network w) as [|[t r|t e|] rest]; cbn.
  - eexists. tidy_trace. reflexivity.
  - destruct (t <? timer_delay (timeout this)); cbn.
    + destruct (ok r); cbn.
      * destruct (resp_json r); cbn; eexists; tidy_trace; reflexivity.
      * destruct (resp_json r) as [v| |]; cbn;
          [destruct (nullish v); cbn; split_conversion| |];
          eexists; tidy_trace; reflexivity.
    + eexists. tidy_trace. reflexivity.
  - destruct (t <? timer_delay (timeout this)); cbn.
    + destruct e as [sx|n m|v]; cbn;
        [|destruct (n =? "AbortError")%string; cbn|];
        eexists; tidy_trace; reflexivity.
    + eexists. tidy_trace. reflexivity.
  - eexists. tidy_trace. reflexivity.
Qed.

(** A call-site is the dispatcher at its [dispatch_args]. *)
Lemma invoke_request this c :
  invoke this c =
    (let '(method, endpoint, body, queryParams) := dispatch_args c in
     request this method endpoint body queryParams).
Proof. destruct c; reflexivity. Qed.



(** [media.upload] when its first step gave an object with a [data]
    object: one direct upload, then [data.mediaUrl]. *)
Lemma media_upload_step2 this file filename contentType w r w1 :
  media_getUploadUrl this (upload_request filename contentType) w = (Fulfilled r, w1) ->
  nullish r = false ->
  nullish (get_prop r "data") = false ->
  media_upload this file filename contentType w =
    (unguarded_outcome (next_fetch w1) (get_prop (get_prop r "data") "mediaUrl"),
     after_put w1 (ToString (get_prop (get_prop r "data") "uploadUrl"))
       file contentType).
Proof.
  intros H1 Hr Hdata. unfold media_upload. fold (upload_request filename contentType).
  unfold bind at 1. rewrite H1.
  unfold bind at 1, destructure. rewrite Hr. unfold ret at 1.
  unfold bind at 1, member at 1. rewrite Hdata. unfold ret at 1.
  unfold bind at 1. rewrite fetch_unguarded by reflexivity.
  unfold member. rewrite Hdata. unfold after_put, unguarded_outcome.
  destruct (next_fetch w1); reflexivity.
Qed.


End Runs.

(* ================================================================== *)
(** ** The query of the constructed URL *)
(* ================================================================== *)

Module QueryFacts.
Import URLSearchParams.

Lemma getAll_cons name k v l :
  getAll name ((k, v) :: l)
  = if (k =? name)%string then v :: getAll name l else getAll name l.
Proof. unfold getAll. cbn. destruct (k =? name)%string; reflexivity. Qed.

Lemma getAll_remove_same name l : getAll name (remove name l) = [].
Proof.
  induction l as [|[k v] l IH]; cbn [remove]; [reflexivity|].
  destruct (k =? name)%string eqn:E; [exact IH|].
  rewrite getAll_cons, E. exact IH.
Qed.

Lemma getAll_remove_other name other l :
  other <> name -> getAll other (remove name l) = getAll other l.
Proof.
  intros Hne.
  induction l as [|[k v] l IH]; cbn [remove]; [reflexivity|].
  rewrite getAll_cons.
  destruct (k =? name)%string eqn:E.
  - apply String.eqb_eq in E. subst k.
    assert ((name =? other)%string = false) as ->
      by (apply String.eqb_neq; congruence).
    exact IH.
  - rewrite getAll_cons, IH. reflexivity.
Qed.

(** After [set(name, value)] the name is there once, with the value. *)
Lemma getAll_set_same name value l : getAll name (set name value l) = [value].
Proof.
  induction l as [|[k v] l IH]; cbn [set].
  - rewrite getAll_cons, String.eqb_refl. reflexivity.
  - destruct (k =? name)%string eqn:E.
    + rewrite getAll_cons, String.eqb_refl, getAll_remove_same. reflexivity.
    + rewrite getAll_cons, E. exact IH.
Qed.

(** [set] leaves every other name as it was. *)
Lemma getAll_set_other name value other l :
  other <> name -> getAll other (set name value l) = getAll other l.
Proof.
  intros Hne.
  assert ((name =? other)%string = false) as Hno
    by (apply String.eqb_neq; congruence).
  induction l as [|[k v] l IH]; cbn [set].
  - rewrite getAll_cons, Hno. reflexivity.
  - destruct (k =? name)%string eqn:E.
    + apply String.eqb_eq in E. subst k.
      rewrite !getAll_cons, Hno. apply getAll_remove_other. exact Hne.
    + rewrite !getAll_cons, IH. reflexivity.
Qed.

Lemma occurrences_getAll name l : occurrences name l = length (getAll name l).
Proof. unfold occurrences, getAll. symmetry. apply length_map. Qed.

(** One step of the [forEach] does not touch the names of other
    entries. *)
Lemma add_query_other url entry other :
  other <> fst entry ->
  getAll other (url_search (add_query url entry)) = getAll other (url_search url).
Proof.
  intros Hne. unfold add_query.
  destruct (snd entry); cbn; try reflexivity;
    apply getAll_set_other; exact Hne.
Qed.

(** Entries of other names leave a name as the URL had it. *)
Lemma fold_add_query_other entries : forall url other,
  ~ In other (map fst entries) ->
  getAll other (url_search (fold_left add_query entries url))
  = getAll other (url_search url).
Proof.
  induction entries as [|entry entries IH]; intros url other Hnot; cbn.
  - reflexivity.
  - cbn in Hnot. rewrite IH by tauto.
    apply add_query_other. intros ->. tauto.
Qed.

(** The loop over an object's entries, at one of them. *)
Lemma fold_add_query_entry entries : forall url key value,
  NoDup (map fst entries) ->
  In (key, value) entries ->
  getAll key (url_search (fold_left add_query entries url)) =
    match value with
    | QUndefined => getAll key (url_search url)
    | _ => [ToString (QueryValue_jsval value)]
    end.
Proof.
  induction entries as [|entry entries IH]; intros url key value Hnd Hin.
  - destruct Hin.
  - cbn in Hnd. apply NoDup_cons_iff in Hnd as [Hfresh Hnd].
    cbn [fold_left]. destruct Hin as [-> | Hin].
    + cbn in Hfresh. rewrite fold_add_query_other by exact Hfresh.
      unfold add_query. cbn [fst snd].
      destruct value; cbn [url_search set_search]; try reflexivity;
        apply getAll_set_same.
    + rewrite (IH _ key value Hnd Hin).
      destruct value; try reflexivity.
      apply add_query_other. cbn. intros ->.
      apply Hfresh. apply (in_map fst) in Hin. exact Hin.
Qed.

End QueryFacts.

(* ================================================================== *)
(** ** Properties of the client *)
(* ================================================================== *)

(** C4, as the code has it.  For a call with a query-parameter object
    (an object has no two entries of one name): a key whose value is
    undefined is not written by the dispatcher, so it occurs in the
    constructed URL exactly as in the query that base URL and path already
    carry, and not at all when they carry none; a key whose value is
    defined occurs exactly once, with the value [String(value)]. *)
Theorem query_params_in_url {host : Host} (this : SchedulifyX) (endpoint : string)
    (entries : QueryParams) (parsed url : URL) (key : string) (value : QueryValue) :
  URL_parse (baseUrl this ++ endpoint) = Some parsed ->
  build_url this endpoint (Some entries) = Some url ->
  NoDup (map fst entries) ->
  In (key, value) entries ->
  match value with
  | QUndefined =>
      URLSearchParams.getAll key (url_search url)
        = URLSearchParams.getAll key (url_search parsed)
      /\ (url_search parsed = [] ->
          URLSearchParams.occurrences key (url_search url) = 0%nat)
  | _ =>
      URLSearchParams.getAll key (url_search url)
        = [ToString (QueryValue_jsval value)]
      /\ URLSearchParams.occurrences key (url_search url) = 1%nat
  end.
Proof.
  intros Hparse Hbuild Hnd Hin. unfold build_url in Hbuild.
  rewrite Hparse in Hbuild. injection Hbuild as <-.
  pose proof (QueryFacts.fold_add_query_entry entries parsed key value Hnd Hin) as H.
  destruct value; rewrite QueryFacts.occurrences_getAll, H;
    try (split; reflexivity).
  split; [reflexivity|]. intros ->. reflexivity.
Qed.

Lemma query_params_in_url_witness :
  let this := constructor (inr "sk_live_key") in
  let entries := [("status", QUndefined); ("limit", QNumber 20)] in
  exists url,
    build_url this "/posts" (Some entries) = Some url
    /\ NoDup (map fst entries)
    /\ (URLSearchParams.getAll "limit" (url_search url) = ["20"]
        /\ URLSearchParams.occurrences "limit" (url_search url) = 1%nat)
    /\ (URLSearchParams.getAll "status" (url_search url) = []
        /\ URLSearchParams.occurrences "status" (url_search url) = 0%nat).
Proof.
  assert (NoDup (map fst [("status", QUndefined); ("limit", QNumber 20)])) as Hnd
    by (repeat constructor; cbn; intuition discriminate).
  eexists. split; [reflexivity|]. split; [exact Hnd|]. split.
  - exact (query_params_in_url (constructor (inr "sk_live_key")) "/posts"
             [("status", QUndefined); ("limit", QNumber 20)]
             _ _ "limit" (QNumber 20) eq_refl eq_refl Hnd
             (or_intror (or_introl eq_refl))).
  - destruct (query_params_in_url (host := plain_host)
                (constructor (inr "sk_live_key")) "/posts"
                [("status", QUndefined); ("limit", QNumber 20)]
                _ _ "status" QUndefined eq_refl eq_refl Hnd
                (or_introl eq_refl)) as [Hsame Hnone].
    split; [exact Hsame | exact (Hnone eq_refl)].
Defined.

(** C4 as stated fails: a path that carries a query of its own keeps it.
    [analytics.forAccount("a?days=7", { days: undefined })] is sent to a
    URL in which [days] occurs. *)
Lemma undefined_query_key_in_url :
  exists url,
    build_url (constructor (inr "sk_live_key")) ("/analytics/account/" ++ "a?days=7")
      (Some [("days", QUndefined)]) = Some url
    /\ URLSearchParams.getAll "days" (url_search url) = ["7"]
    /\ URL_href url = "https://api.schedulifyx.com/analytics/account/a?days=7".
Proof. eexists. repeat split. Qed.

(** C5, as the code has it.  A bare string gives that API key with the
    default base URL and timeout.  A configuration record gives its API
    key, and for base URL and timeout the record's value when it is
    supplied and truthy (a non-empty base URL, a non-zero timeout), the
    default otherwise. *)
Theorem constructor_defaults :
  (forall key : string,
      constructor (inr key)
      = {| apiKey := key;
           baseUrl := "https://api.schedulifyx.com";
           timeout := 30000 |})
  /\ (forall c : SchedulifyXConfig,
        apiKey (constructor (inl c)) = cfg_apiKey c
        /\ baseUrl (constructor (inl c))
           = match cfg_baseUrl c with
             | Some s => if (s =? "")%string then "https://api.schedulifyx.com" else s
             | None => "https://api.schedulifyx.com"
             end
        /\ timeout (constructor (inl c))
           = match cfg_timeout c with
             | Some n => if n =? 0 then 30000 else n
             | None => 30000
             end).
Proof.
  split; [reflexivity|]. intros [key b t]. cbn. repeat split.
  - destruct b as [s|]; cbn; [destruct (s =? "")%string|]; reflexivity.
  - destruct t as [n|]; cbn; [destruct (n =? 0)|]; reflexivity.
Qed.

(** C5 as stated fails: a supplied timeout of 0 and a supplied empty base
    URL are replaced by the defaults. *)
Lemma constructor_supplied_falsy :
  exists client,
    constructor (inl {| cfg_apiKey := "sk_live_key";
                        cfg_baseUrl := Some "";
                        cfg_timeout := Some 0 |}) = client
    /\ timeout client = 30000 /\ timeout client <> 0
    /\ baseUrl client = "https://api.schedulifyx.com" /\ baseUrl client <> "".
Proof. eexists. repeat split; cbn; discriminate. Qed.

(** C1.  A call whose fetch has no answer by the time the configured
    timeout runs fails with a [SchedulifyXError] of code [timeout] and
    status 408; the timer aborts the fetch, and what the call does after
    the abort does not reach the network. *)
Theorem request_timeout_aborts {host : Host} (this : SchedulifyX)
    (method endpoint : string) (body : jsval) (queryParams : option QueryParams)
    (url : URL) (w : World) :
  build_url this endpoint queryParams = Some url ->
  overdue (next_fetch w) (timer_delay (timeout this)) = true ->
  exists e w' later,
    request this method endpoint body queryParams w = (Rejected (ThrownSX e), w')
    /\ name e = "SchedulifyXError"
    /\ code e = JStr "timeout"
    /\ status e = 408
    /\ trace w' = (trace w
                   ++ [EvSetTimeout (timeout this);
                       EvFetch (URL_href url) (request_init this method body);
                       EvAbort]
                   ++ later)%list
    /\ forallb (fun ev => negb (touches_network ev)) later = true
    /\ abort_timer w' = None.
Proof.
  intros Hurl Hlate.
  exists (new_SchedulifyXError (JStr "Request timeout") (JStr "timeout") 408 JUndefined).
  eexists. exists [EvClearTimeout].
  rewrite (request_overdue_run _ _ _ _ _ _ _ Hurl Hlate).
  repeat split.
Qed.

Lemma request_timeout_aborts_witness :
  let this := constructor (inl {| cfg_apiKey := "sk_live_key";
                                  cfg_baseUrl := None;
                                  cfg_timeout := Some 5000 |}) in
  let slow := Responds 5000 (json_response 200 (JObj [("data", JArr [])])) in
  overdue slow (timer_delay (timeout this)) = true
  /\ exists e w' later,
       request this "GET" "/posts" JUndefined None (fresh_world [slow])
         = (Rejected (ThrownSX e), w')
       /\ name e = "SchedulifyXError"
       /\ code e = JStr "timeout"
       /\ status e = 408
       /\ trace w' = ([]
                      ++ [EvSetTimeout 5000;
                          EvFetch "https://api.schedulifyx.com/posts"
                            (request_init this "GET" JUndefined);
                          EvAbort]
                      ++ later)%list
       /\ forallb (fun ev => negb (touches_network ev)) later = true
       /\ abort_timer w' = None.
Proof.
  split; [reflexivity|].
  exact (request_timeout_aborts (host := plain_host)
           (constructor (inl {| cfg_apiKey := "sk_live_key";
                                cfg_baseUrl := None;
                                cfg_timeout := Some 5000 |}))
           "GET" "/posts" JUndefined None _
           (fresh_world [Responds 5000 (json_response 200 (JObj [("data", JArr [])]))])
           eq_refl eq_refl).
Defined.

(** C2, as the code has it.  For a response that is not 2xx and whose
    body parses to an object with an [error] object of string [code] and
    [message]: the raised error's code and message are those of the body
    when they are not empty, an empty code is replaced by [http_error] and
    an empty message by [HTTP <status>]; its details are the body's
    details as they are, and its status is that of the response. *)
Theorem api_error_fields {host : Host} (this : SchedulifyX)
    (method endpoint : string) (body : jsval) (queryParams : option QueryParams)
    (url : URL) (w : World) (t : Z) (r : Response)
    (errorBody error : jsval) (c m : string) (d : jsval) :
  build_url this endpoint queryParams = Some url ->
  next_fetch w = Responds t r ->
  t < timer_delay (timeout this) ->
  ok r = false ->
  resp_json r = Fulfilled errorBody ->
  get_prop errorBody "error" = error ->
  get_prop error "code" = JStr c ->
  get_prop error "message" = JStr m ->
  get_prop error "details" = d ->
  exists e,
    fst (request this method endpoint body queryParams w) = Rejected (ThrownSX e)
    /\ code e = JStr (if (c =? "")%string then "http_error" else c)
    /\ message e = (if (m =? "")%string
                    then "HTTP " ++ Number_toString (resp_status r) else m)
    /\ details e = d
    /\ status e = resp_status r.
Proof.
  intros Hurl Hnext Hlt Hok Hjson Herror Hcode Hmessage Hdetails.
  assert (nullish error = false) as Hne
    by (destruct error; try reflexivity; discriminate).
  assert (nullish errorBody = false) as Hnb
    by (destruct errorBody; try reflexivity; cbn in Herror; subst error; discriminate).
  assert (errorData_of r = Fulfilled errorBody) as Hdata
    by (unfold errorData_of; rewrite Hjson; reflexivity).
  assert (String_throws (api_message r errorBody) = false) as Hconv.
  { unfold api_message, opt_member, or_else. rewrite Herror, Hne, Hmessage.
    destruct (truthy (JStr m)); reflexivity. }
  exists (api_error r errorBody).
  rewrite (request_not_ok_run _ method _ body _ _ _ _ _ errorBody
             Hurl Hnext Hlt Hok Hdata Hnb Hconv).
  unfold api_error, opt_member. rewrite Herror, Hne, Hcode, Hmessage, Hdetails.
  unfold or_else. cbn [truthy fst].
  repeat split.
  - cbn. destruct (c =? "")%string; reflexivity.
  - cbn. destruct (m =? "")%string; reflexivity.
Qed.

Lemma api_error_fields_witness :
  let this := constructor (inr "sk_live_key") in
  let error := JObj [("code", JStr "validation_error");
                     ("message", JStr "content is required");
                     ("details", JObj [("field", JStr "content")])] in
  let answer := Responds 120 (json_response 422 (JObj [("error", error)])) in
  120 < timer_delay (timeout this)
  /\ exists e,
       fst (request this "POST" "/posts" (JObj []) None (fresh_world [answer]))
         = Rejected (ThrownSX e)
       /\ code e = JStr "validation_error"
       /\ message e = "content is required"
       /\ details e = JObj [("field", JStr "content")]
       /\ status e = 422.
Proof.
  split; [reflexivity|].
  exact (api_error_fields (host := plain_host)
           (constructor (inr "sk_live_key")) "POST" "/posts" (JObj []) None _
           (fresh_world
              [Responds 120
                 (json_response 422
                    (JObj [("error",
                            JObj [("code", JStr "validation_error");
                                  ("message", JStr "content is required");
                                  ("details", JObj [("field", JStr "content")])])]))])
           120 _ _ _ "validation_error" "content is required" _
           eq_refl eq_refl eq_refl eq_refl eq_refl eq_refl eq_refl eq_refl eq_refl).
Defined.

(** C2 as stated fails: an error body whose code and message are empty
    strings raises an error with code [http_error] and message
    [HTTP 422], not with the empty strings of the body. *)
Lemma api_error_empty_fields_replaced :
  exists e,
    fst (request (constructor (inr "sk_live_key")) "POST" "/posts" (JObj []) None
           (fresh_world
              [Responds 120
                 (json_response 422
                    (JObj [("error",
                            JObj [("code", JStr ""); ("message", JStr "");
                                  ("details", JNull)])]))]))
      = Rejected (ThrownSX e)
    /\ code e = JStr "http_error" /\ code e <> JStr ""
    /\ message e = "HTTP 422" /\ message e <> ""
    /\ details e = JNull.
Proof. eexists. repeat split; cbn; discriminate. Qed.

(** C3.  For a response that is not 2xx and whose body does not parse as
    JSON, the raised error has code [http_error], message [HTTP <status>]
    and the status of the response. *)
Theorem unparseable_error_body {host : Host} (this : SchedulifyX)
    (method endpoint : string) (body : jsval) (queryParams : option QueryParams)
    (url : URL) (w : World) (t : Z) (r : Response) (parseError : Thrown) :
  build_url this endpoint queryParams = Some url ->
  next_fetch w = Responds t r ->
  t < timer_delay (timeout this) ->
  ok r = false ->
  resp_json r = Rejected parseError ->
  fst (request this method endpoint body queryParams w)
  = Rejected (ThrownSX {| name := "SchedulifyXError";
                          message := "HTTP " ++ Number_toString (resp_status r);
                          code := JStr "http_error";
                          status := resp_status r;
                          details := JUndefined |}).
Proof.
  intros Hurl Hnext Hlt Hok Hjson.
  assert (errorData_of r = Fulfilled (JObj [])) as Hdata
    by (unfold errorData_of; rewrite Hjson; reflexivity).
  rewrite (request_not_ok_run _ method _ body _ _ _ _ _ (JObj [])
             Hurl Hnext Hlt Hok Hdata eq_refl eq_refl).
  reflexivity.
Qed.

Lemma unparseable_error_body_witness :
  let this := constructor (inr "sk_live_key") in
  120 < timer_delay (timeout this)
  /\ ok (garbled_response 502) = false
  /\ fst (request this "GET" "/usage" JUndefined None
            (fresh_world [Responds 120 (garbled_response 502)]))
     = Rejected (ThrownSX {| name := "SchedulifyXError";
                             message := "HTTP 502";
                             code := JStr "http_error";
                             status := 502;
                             details := JUndefined |}).
Proof.
  split; [reflexivity|]. split; [reflexivity|].
  exact (unparseable_error_body (host := plain_host)
           (constructor (inr "sk_live_key")) "GET" "/usage" JUndefined None _
           (fresh_world [Responds 120 (garbled_response 502)])
           120 (garbled_response 502) _
           eq_refl eq_refl eq_refl eq_refl eq_refl).
Defined.

(** C6.  For every endpoint, when the response arrives in time with a
    success status and its body parses as JSON, the call returns the
    parsed value as it is, whatever its shape. *)
Theorem success_body_passthrough {host : Host} (this : SchedulifyX) (c : ApiCall)
    (method endpoint : string) (body : jsval) (queryParams : option QueryParams)
    (url : URL) (w : World) (t : Z) (r : Response) (payload : jsval) :
  dispatch_args c = (method, endpoint, body, queryParams) ->
  build_url this endpoint queryParams = Some url ->
  next_fetch w = Responds t r ->
  t < timer_delay (timeout this) ->
  ok r = true ->
  resp_json r = Fulfilled payload ->
  fst (invoke this c w) = Fulfilled payload.
Proof.
  intros Hargs Hurl Hnext Hlt Hok Hjson.
  rewrite invoke_request, Hargs.
  rewrite (request_ok_run _ _ _ _ _ _ _ _ _ Hurl Hnext Hlt Hok).
  exact Hjson.
Qed.

Lemma success_body_passthrough_witness :
  let this := constructor (inr "sk_live_key") in
  let data := JObj [("content", JStr "hi");
                    ("accountIds", JArr [JStr "acc_1"]);
                    ("publishNow", JBool true)] in
  let echoed := JObj [("data", JObj [("id", JStr "post_1");
                                     ("content", JStr "hi");
                                     ("status", JStr "publishing")])] in
  150 < timer_delay (timeout this)
  /\ ok (json_response 201 echoed) = true
  /\ fst (invoke this (PostsCreate data)
            (fresh_world [Responds 150 (json_response 201 echoed)]))
     = Fulfilled echoed.
Proof.
  split; [reflexivity|]. split; [reflexivity|].
  exact (success_body_passthrough (host := plain_host)
           (constructor (inr "sk_live_key"))
           (PostsCreate (JObj [("content", JStr "hi");
                               ("accountIds", JArr [JStr "acc_1"]);
                               ("publishNow", JBool true)]))
           "POST" "/posts" _ None _
           (fresh_world
              [Responds 150
                 (json_response 201
                    (JObj [("data", JObj [("id", JStr "post_1");
                                          ("content", JStr "hi");
                                          ("status", JStr "publishing")])]))])
           150 _ _
           eq_refl eq_refl eq_refl eq_refl eq_refl eq_refl).
Defined.




(** C8.  When [media.getUploadUrl] succeeds and the direct PUT resolves
    with a response, [media.upload] returns [data.mediaUrl] whatever the
    status of that response is. *)
Theorem media_upload_ignores_put_status {host : Host} (this : SchedulifyX)
    (file : Blob) (filename contentType : string) (w w1 : World) (r : jsval)
    (t : Z) (putResponse : Response) :
  media_getUploadUrl this (upload_request filename contentType) w = (Fulfilled r, w1) ->
  nullish r = false ->
  nullish (get_prop r "data") = false ->
  next_fetch w1 = Responds t putResponse ->
  fst (media_upload this file filename contentType w)
  = Fulfilled (get_prop (get_prop r "data") "mediaUrl").
Proof.
  intros H1 Hr Hdata Hput.
  rewrite (media_upload_step2 _ _ _ _ _ _ _ H1 Hr Hdata), Hput. reflexivity.
Qed.

Lemma media_upload_ignores_put_status_witness :
  let this := constructor (inr "sk_live_key") in
  let denied := garbled_response 403 in
  ok denied = false
  /\ fst (media_upload this [] "abc.png" "image/png"
            (fresh_world [Responds 80 (json_response 200 presigned);
                          Responds 300 denied]))
     = Fulfilled (JStr "https://cdn.example.com/abc.png").
Proof.
  split; [reflexivity|].
  exact (media_upload_ignores_put_status (host := plain_host)
           (constructor (inr "sk_live_key")) [] "abc.png" "image/png"
           (fresh_world [Responds 80 (json_response 200 presigned);
                         Responds 300 (garbled_response 403)])
           _ presigned 300 (garbled_response 403)
           eq_refl eq_refl eq_refl eq_refl).
Defined.

(** C9 does not hold of the code.  When a response arrives in time with
    a success status and [response.json()] rejects, the call rejects with
    that very rejection: the promise is returned from the [try] block
    without being awaited there, so the [catch] block never sees it and no
    [SchedulifyXError] is built. *)
Theorem ok_body_rejection_escapes {host : Host} (this : SchedulifyX)
    (method endpoint : string) (body : jsval) (queryParams : option QueryParams)
    (url : URL) (w : World) (t : Z) (r : Response) (parseError : Thrown) :
  build_url this endpoint queryParams = Some url ->
  next_fetch w = Responds t r ->
  t < timer_delay (timeout this) ->
  ok r = true ->
  resp_json r = Rejected parseError ->
  fst (request this method endpoint body queryParams w) = Rejected parseError.
Proof.
  intros Hurl Hnext Hlt Hok Hjson.
  rewrite (request_ok_run _ _ _ _ _ _ _ _ _ Hurl Hnext Hlt Hok). exact Hjson.
Qed.

Lemma ok_body_rejection_escapes_witness :
  let this := constructor (inr "sk_live_key") in
  120 < timer_delay (timeout this)
  /\ ok (garbled_response 200) = true
  /\ fst (request this "GET" "/usage" JUndefined None
            (fresh_world [Responds 120 (garbled_response 200)]))
     = Rejected (ThrownError "SyntaxError" "Unexpected token < in JSON at position 0").
Proof.
  split; [reflexivity|]. split; [reflexivity|].
  exact (ok_body_rejection_escapes (host := plain_host)
           (constructor (inr "sk_live_key")) "GET" "/usage" JUndefined None _
           (fresh_world [Responds 120 (garbled_response 200)])
           120 (garbled_response 200) _
           eq_refl eq_refl eq_refl eq_refl eq_refl).
Defined.

(** A truthy value is never serialised to [undefined]. *)
Lemma truthy_stringify (v : jsval) :
  truthy v = true -> exists text, JSON_stringify v = Some text.
Proof.
  destruct v as [| |[|]| | | |]; cbn; intros H; try discriminate; eexists; reflexivity.
Qed.

(** C10.  The fetch of a call carries a body exactly when the body
    argument is truthy: a falsy argument, the defined values 0, the empty
    string and false among them, is sent as no body at all, and a truthy
    one as its JSON text. *)
Theorem falsy_body_omitted {host : Host} (this : SchedulifyX)
    (method endpoint : string) (body : jsval) (queryParams : option QueryParams)
    (url : URL) (w : World) :
  build_url this endpoint queryParams = Some url ->
  exists init later,
    trace (snd (request this method endpoint body queryParams w))
    = (trace w ++ EvSetTimeout (timeout this)
               :: EvFetch (URL_href url) init :: later)%list
    /\ (truthy body = false -> Async.body init = None)
    /\ (In body [JNum 0; JStr ""; JBool false] -> Async.body init = None)
    /\ (truthy body = true ->
        exists text, JSON_stringify body = Some text
                     /\ Async.body init = Some (BodyText text)).
Proof.
  intros Hurl.
  destruct (request_sends this method endpoint body queryParams url w Hurl)
    as [later Htrace].
  exists (request_init this method body), later.
  split; [exact Htrace|].
  cbn [Async.body request_init]. unfold request_body.
  split; [intros ->; reflexivity|]. split.
  - intros [<-|[<-|[<-|[]]]]; reflexivity.
  - intros Htruthy. rewrite Htruthy.
    destruct (truthy_stringify body Htruthy) as [text Htext].
    exists text. rewrite Htext. split; reflexivity.
Qed.

Lemma falsy_body_omitted_witness :
  let this := constructor (inr "sk_live_key") in
  truthy (JNum 0) = false
  /\ JSON_stringify (JNum 0) = Some "0"
  /\ exists init later,
       trace (snd (request this "POST" "/posts" (JNum 0) None
                     (fresh_world [Responds 120 (json_response 200 JNull)])))
       = (EvSetTimeout 30000
            :: EvFetch "https://api.schedulifyx.com/posts" init :: later)%list
       /\ Async.body init = None.
Proof.
  split; [reflexivity|]. split; [reflexivity|].
  destruct (falsy_body_omitted (host := plain_host)
              (constructor (inr "sk_live_key")) "POST" "/posts" (JNum 0) None _
              (fresh_world [Responds 120 (json_response 200 JNull)]) eq_refl)
    as (init & later & Htrace & Hfalsy & _).
  exists init, later. split; [exact Htrace | exact (Hfalsy eq_refl)].
Defined.

(* ================================================================== *)
(** ** The dispatcher, whatever the network does *)
(* ================================================================== *)

Section Outcomes.
Context {host : Host}.

(** A call with a valid URL settles as [call_outcome] says. *)
Lemma request_outcome this method endpoint body queryParams url w :
  build_url this endpoint queryParams = Some url ->
  fst (request this method endpoint body queryParams w)
  = call_outcome (timer_delay (timeout this)) (next_fetch w).
Proof.
  intros Hurl. unfold request. rewrite Hurl. unfold_async.
  unfold call_outcome, answered_outcome, error_outcome, api_message, caught,
    member_TypeError, conversion_TypeError.
  cbn [network abort_timer trace signal request_init].
  destruct (network w) as [|[t r|t e|] rest]; cbn; try reflexivity.
  - destruct (t <? timer_delay (timeout this)); cbn; [|reflexivity].
    destruct (ok r); cbn.
    + destruct (resp_json r); reflexivity.
    + destruct (resp_json r) as [v| |]; cbn; try reflexivity.
      destruct (nullish v); cbn; [reflexivity|].
      split_conversion; reflexivity.
  - destruct (t <? timer_delay (timeout this)); cbn; [|reflexivity].
    destruct e as [sx|n m|v]; cbn; try reflexivity.
    destruct (n =? "AbortError")%string; reflexivity.
Qed.

(** A call with a valid URL arms one timer and starts one fetch; after
    that it only settles, takes one behaviour off the network and leaves
    no timer armed. *)
Lemma request_shape this method endpoint body queryParams url w :
  build_url this endpoint queryParams = Some url ->
  exists later,
    snd (request this method endpoint body queryParams w)
    = after_fetch w (EvSetTimeout (timeout this)
                       :: EvFetch (URL_href url) (request_init this method body)
                       :: later)
    /\ forallb settles_only later = true.
Proof.
  intros Hurl. unfold request. rewrite Hurl. unfold_async.
  cbn [network abort_timer trace signal request_init].
  destruct (network w) as [|[t r|t e|] rest]; cbn.
  - eexists. tidy_trace. split; reflexivity.
  - destruct (t <? timer_delay (timeout this)); cbn.
    + destruct (ok r); cbn.
      * destruct (resp_json r); cbn; eexists; tidy_trace; split; reflexivity.
      * destruct (resp_json r) as [v| |]; cbn;
          [destruct (nullish v); cbn; split_conversion| |];
          eexists; tidy_trace; split; reflexivity.
    + eexists. tidy_trace. split; reflexivity.
  - destruct (t <? timer_delay (timeout this)); cbn.
    + destruct e as [sx|n m|v]; cbn;
        [|destruct (n =? "AbortError")%string; cbn|];
        eexists; tidy_trace; split; reflexivity.
    + eexists. tidy_trace. split; reflexivity.
  - eexists. tidy_trace. split; reflexivity.
Qed.

End Outcomes.

(* ================================================================== *)
(** ** Further properties of the dispatcher *)
(* ================================================================== *)

(** X1.  No retries and no leftover timer: a call with a valid URL arms
    one timer with the configured timeout and starts exactly one fetch,
    which carries the verb, the bearer token of the API key, the JSON
    content type and the abort signal; whatever the network does, nothing
    after that starts a fetch or arms a timer, one behaviour of the
    network is used up and no timer is left armed. *)
Theorem request_single_fetch {host : Host} (this : SchedulifyX)
    (method endpoint : string) (body : jsval) (queryParams : option QueryParams)
    (url : URL) (w : World) :
  build_url this endpoint queryParams = Some url ->
  exists later,
    trace (snd (request this method endpoint body queryParams w))
    = (trace w
       ++ EvSetTimeout (timeout this)
          :: EvFetch (URL_href url)
               {| method := method;
                  headers := [("Authorization", ("Bearer " ++ apiKey this)%string);
                              ("Content-Type", "application/json")];
                  body := request_body body;
                  signal := true |}
          :: later)%list
    /\ forallb settles_only later = true
    /\ network (snd (request this method endpoint body queryParams w))
       = tl (network w)
    /\ abort_timer (snd (request this method endpoint body queryParams w)) = None.
Proof.
  intros Hurl.
  destruct (request_shape this method endpoint body queryParams url w Hurl)
    as (later & Hworld & Hlater).
  exists later. rewrite Hworld. repeat split. exact Hlater.
Qed.

Lemma request_single_fetch_witness :
  let this := constructor (inr "sk_live_key") in
  let net := [Fails 40 (ThrownError "TypeError" "fetch failed");
              Responds 90 (json_response 200 JNull)] in
  exists later,
    trace (snd (request this "DELETE" "/posts/post_1" JUndefined None (fresh_world net)))
    = (EvSetTimeout 30000
         :: EvFetch "https://api.schedulifyx.com/posts/post_1"
              {| method := "DELETE";
                 headers := [("Authorization", "Bearer sk_live_key");
                             ("Content-Type", "application/json")];
                 body := None;
                 signal := true |}
         :: later)%list
    /\ forallb settles_only later = true
    /\ network (snd (request this "DELETE" "/posts/post_1" JUndefined None
                       (fresh_world net)))
       = [Responds 90 (json_response 200 JNull)]
    /\ abort_timer (snd (request this "DELETE" "/posts/post_1" JUndefined None
                           (fresh_world net))) = None.
Proof.
  exact (request_single_fetch (host := plain_host)
           (constructor (inr "sk_live_key")) "DELETE" "/posts/post_1" JUndefined None _
           (fresh_world [Fails 40 (ThrownError "TypeError" "fetch failed");
                         Responds 90 (json_response 200 JNull)])
           eq_refl).
Defined.

(** X2.  A base URL and path that [new URL] refuses make the call reject
    with the constructor's own error, which is no [SchedulifyXError]: the
    URL is built before the [try] block.  No timer is armed and no fetch
    is started. *)
Theorem request_invalid_url {host : Host} (this : SchedulifyX)
    (method endpoint : string) (body : jsval) (queryParams : option QueryParams)
    (w : World) :
  URL_parse (baseUrl this ++ endpoint) = None ->
  exists errName errMessage,
    request this method endpoint body queryParams w
    = (Rejected (ThrownError errName errMessage), w).
Proof.
  intros Hparse. unfold request, build_url. rewrite Hparse.
  eexists. eexists. reflexivity.
Qed.

Lemma request_invalid_url_witness :
  let this := constructor (inl {| cfg_apiKey := "sk_live_key";
                                  cfg_baseUrl := Some "api.schedulifyx.com";
                                  cfg_timeout := None |}) in
  URL_parse (baseUrl this ++ "/posts") = None
  /\ exists errName errMessage,
       request this "GET" "/posts" JUndefined None
         (fresh_world [Responds 90 (json_response 200 JNull)])
       = (Rejected (ThrownError errName errMessage),
          fresh_world [Responds 90 (json_response 200 JNull)]).
Proof.
  split; [reflexivity|].
  exact (request_invalid_url (host := plain_host)
           (constructor (inl {| cfg_apiKey := "sk_live_key";
                                cfg_baseUrl := Some "api.schedulifyx.com";
                                cfg_timeout := None |}))
           "GET" "/posts" JUndefined None
           (fresh_world [Responds 90 (json_response 200 JNull)]) eq_refl).
Defined.

(** X3.  A fetch that the platform rejects before the timer runs is
    reported by the name of the error alone: an [Error] named
    [AbortError] as the timeout error (code [timeout], status 408), any
    other [Error] as code [network_error], status 0, with the error's own
    message, and a thrown value that is no [Error] as code
    [network_error], status 0, message [Network error]. *)
Theorem fetch_failure_normalised {host : Host} (this : SchedulifyX)
    (method endpoint : string) (body : jsval) (queryParams : option QueryParams)
    (url : URL) (w : World) (t : Z) (err : Thrown) :
  build_url this endpoint queryParams = Some url ->
  next_fetch w = Fails t err ->
  t < timer_delay (timeout this) ->
  from_platform err = true ->
  exists e,
    fst (request this method endpoint body queryParams w) = Rejected (ThrownSX e)
    /\ details e = JUndefined
    /\ match err with
       | ThrownError errName errMessage =>
           if (errName =? "AbortError")%string
           then code e = JStr "timeout" /\ status e = 408
                /\ message e = "Request timeout"
           else code e = JStr "network_error" /\ status e = 0
                /\ message e = errMessage
       | _ => code e = JStr "network_error" /\ status e = 0
              /\ message e = "Network error"
       end.
Proof.
  intros Hurl Hnext Hlt Hplat.
  rewrite (request_outcome _ _ _ _ _ _ _ Hurl), Hnext. cbn [call_outcome].
  assert ((t <? timer_delay (timeout this)) = true) as -> by lia.
  destruct err as [sx|errName errMessage|v]; [discriminate| |]; cbn [caught].
  - destruct (errName =? "AbortError")%string; eexists; repeat split.
  - eexists. repeat split.
Qed.

Lemma fetch_failure_normalised_witness :
  let this := constructor (inr "sk_live_key") in
  let refused := ThrownError "TypeError" "fetch failed" in
  40 < timer_delay (timeout this)
  /\ exists e,
       fst (request this "GET" "/usage" JUndefined None
              (fresh_world [Fails 40 refused]))
       = Rejected (ThrownSX e)
       /\ details e = JUndefined
       /\ code e = JStr "network_error" /\ status e = 0
       /\ message e = "fetch failed".
Proof.
  split; [reflexivity|].
  exact (fetch_failure_normalised (host := plain_host)
           (constructor (inr "sk_live_key")) "GET" "/usage" JUndefined None _
           (fresh_world [Fails 40 (ThrownError "TypeError" "fetch failed")])
           40 (ThrownError "TypeError" "fetch failed")
           eq_refl eq_refl eq_refl eq_refl).
Defined.

(** X4.  The errors a call can raise: on a network whose rejections
    come from the platform, a [SchedulifyXError] raised by a call has code
    [timeout] and status 408, or code [network_error] and status 0, or
    the status of a response that came in time and is not 2xx.  The three
    cases are not exclusive. *)
Theorem raised_error_cases {host : Host} (this : SchedulifyX)
    (method endpoint : string) (body : jsval) (queryParams : option QueryParams)
    (url : URL) (w : World) (e : SchedulifyXError) :
  build_url this endpoint queryParams = Some url ->
  platform_behaviour (next_fetch w) = true ->
  fst (request this method endpoint body queryParams w) = Rejected (ThrownSX e) ->
  (code e = JStr "timeout" /\ status e = 408)
  \/ (code e = JStr "network_error" /\ status e = 0)
  \/ (exists t r,
        next_fetch w = Responds t r
        /\ t < timer_delay (timeout this)
        /\ ok r = false
        /\ status e = resp_status r).
Proof.
  intros Hurl Hplat Hrej.
  rewrite (request_outcome _ _ _ _ _ _ _ Hurl) in Hrej.
  unfold call_outcome, answered_outcome, error_outcome in Hrej.
  destruct (next_fetch w) as [t r|t err|]; cbn in Hplat.
  - destruct (t <? timer_delay (timeout this)) eqn:Hlt;
      [|injection Hrej as <-; left; split; reflexivity].
    destruct (ok r) eqn:Hok.
    + rewrite Hrej in Hplat. discriminate.
    + assert (forall d,
                 @Rejected jsval
                   (if String_throws (api_message r d)
                    then caught conversion_TypeError
                    else ThrownSX (api_error r d))
                 = Rejected (ThrownSX e) ->
                 (code e = JStr "network_error" /\ status e = 0)
                 \/ (exists t0 r0, Responds t r = Responds t0 r0
                                   /\ t0 < timer_delay (timeout this)
                                   /\ ok r0 = false
                                   /\ status e = resp_status r0)) as Hapi.
      { intros d Hd. destruct (String_throws (api_message r d)).
        - cbn in Hd. injection Hd as <-. left. split; reflexivity.
        - injection Hd as <-. right. exists t, r.
          repeat split; [lia|exact Hok]. }
      destruct (resp_json r) as [d|parseError|]; [| |discriminate].
      * destruct (nullish d).
        -- cbn in Hrej. injection Hrej as <-. right. left. split; reflexivity.
        -- right. exact (Hapi d Hrej).
      * right. exact (Hapi (JObj []) Hrej).
  - destruct (t <? timer_delay (timeout this));
      [|injection Hrej as <-; left; split; reflexivity].
    destruct err as [sx|errName errMessage|v]; [discriminate| |]; cbn in Hrej.
    + destruct (errName =? "AbortError")%string; injection Hrej as <-;
        [left|right; left]; split; reflexivity.
    + injection Hrej as <-. right. left. split; reflexivity.
  - injection Hrej as <-. left. split; reflexivity.
Qed.

Lemma raised_error_cases_witness :
  let this := constructor (inr "sk_live_key") in
  let answer := Responds 120 (json_response 404 (JObj [])) in
  let e := api_error (json_response 404 (JObj [])) (JObj []) in
  platform_behaviour answer = true
  /\ fst (request this "GET" "/posts/none" JUndefined None (fresh_world [answer]))
     = Rejected (ThrownSX e)
  /\ ((code e = JStr "timeout" /\ status e = 408)
      \/ (code e = JStr "network_error" /\ status e = 0)
      \/ (exists t r,
            next_fetch (fresh_world [answer]) = Responds t r
            /\ t < timer_delay (timeout this)
            /\ ok r = false
            /\ status e = resp_status r)).
Proof.
  split; [reflexivity|]. split; [reflexivity|].
  exact (raised_error_cases (host := plain_host)
           (constructor (inr "sk_live_key")) "GET" "/posts/none" JUndefined None _
           (fresh_world [Responds 120 (json_response 404 (JObj []))])
           (api_error (json_response 404 (JObj [])) (JObj []))
           eq_refl eq_refl eq_refl).
Defined.

(** X5.  A call resolves only on a 2xx response: if it resolves with a
    value, a response came before the timer ran, its status is 2xx and
    the value is its parsed body. *)
Theorem request_resolves_only_on_ok {host : Host} (this : SchedulifyX)
    (method endpoint : string) (body : jsval) (queryParams : option QueryParams)
    (w : World) (v : jsval) :
  fst (request this method endpoint body queryParams w) = Fulfilled v ->
  exists t r,
    next_fetch w = Responds t r
    /\ t < timer_delay (timeout this)
    /\ ok r = true
    /\ resp_json r = Fulfilled v.
Proof.
  intros Hres.
  destruct (build_url this endpoint queryParams) as [url|] eqn:Hurl;
    [|unfold request in Hres; rewrite Hurl in Hres; discriminate].
  rewrite (request_outcome _ _ _ _ _ _ _ Hurl) in Hres.
  unfold call_outcome, answered_outcome in Hres.
  destruct (next_fetch w) as [t r|t err|]; [| |discriminate].
  - destruct (t <? timer_delay (timeout this)) eqn:Hlt; [|discriminate].
    destruct (ok r) eqn:Hok.
    + exists t, r. repeat split; [lia|exact Hok|exact Hres].
    + destruct (resp_json r); discriminate.
  - destruct (t <? timer_delay (timeout this)); discriminate.
Qed.

Lemma request_resolves_only_on_ok_witness :
  let this := constructor (inr "sk_live_key") in
  let answer := json_response 200 (JObj [("data", JArr [])]) in
  exists t r,
    next_fetch (fresh_world [Responds 75 answer]) = Responds t r
    /\ t < timer_delay (timeout this)
    /\ ok r = true
    /\ resp_json r = Fulfilled (JObj [("data", JArr [])]).
Proof.
  exact (request_resolves_only_on_ok (host := plain_host)
           (constructor (inr "sk_live_key")) "GET" "/posts" JUndefined None
           (fresh_world [Responds 75 (json_response 200 (JObj [("data", JArr [])]))])
           (JObj [("data", JArr [])]) eq_refl).
Defined.

(** X6.  A response that is not 2xx and whose body is the JSON value
    [null] loses its status: reading [errorData.error] throws inside the
    [try] block, and the call rejects with code [network_error] and
    status 0. *)
Theorem null_error_body_is_network_error {host : Host} (this : SchedulifyX)
    (method endpoint : string) (body : jsval) (queryParams : option QueryParams)
    (url : URL) (w : World) (t : Z) (r : Response) (errorData : jsval) :
  build_url this endpoint queryParams = Some url ->
  next_fetch w = Responds t r ->
  t < timer_delay (timeout this) ->
  ok r = false ->
  resp_json r = Fulfilled errorData ->
  nullish errorData = true ->
  exists e,
    fst (request this method endpoint body queryParams w) = Rejected (ThrownSX e)
    /\ code e = JStr "network_error"
    /\ status e = 0
    /\ details e = JUndefined.
Proof.
  intros Hurl Hnext Hlt Hok Hjson Hnull.
  rewrite (request_outcome _ _ _ _ _ _ _ Hurl), Hnext. cbn [call_outcome].
  assert ((t <? timer_delay (timeout this)) = true) as -> by lia.
  unfold answered_outcome, error_outcome. rewrite Hok, Hjson, Hnull.
  eexists. repeat split.
Qed.

Lemma null_error_body_is_network_error_witness :
  let this := constructor (inr "sk_live_key") in
  120 < timer_delay (timeout this)
  /\ ok (json_response 500 JNull) = false
  /\ exists e,
       fst (request this "GET" "/usage" JUndefined None
              (fresh_world [Responds 120 (json_response 500 JNull)]))
       = Rejected (ThrownSX e)
       /\ code e = JStr "network_error"
       /\ status e = 0
       /\ details e = JUndefined.
Proof.
  split; [reflexivity|]. split; [reflexivity|].
  exact (null_error_body_is_network_error (host := plain_host)
           (constructor (inr "sk_live_key")) "GET" "/usage" JUndefined None _
           (fresh_world [Responds 120 (json_response 500 JNull)])
           120 (json_response 500 JNull) JNull
           eq_refl eq_refl eq_refl eq_refl eq_refl eq_refl).
Defined.

(** X7.  A response that is not 2xx and whose JSON body has no [error]
    member (an empty object, an array, a number, a string, or an object
    whose [error] is [null]) raises the same error as an unparseable
    body: code [http_error], message [HTTP <status>], the status of the
    response and no details. *)
Theorem error_body_without_error_member {host : Host} (this : SchedulifyX)
    (method endpoint : string) (body : jsval) (queryParams : option QueryParams)
    (url : URL) (w : World) (t : Z) (r : Response) (errorData : jsval) :
  build_url this endpoint queryParams = Some url ->
  next_fetch w = Responds t r ->
  t < timer_delay (timeout this) ->
  ok r = false ->
  resp_json r = Fulfilled errorData ->
  nullish errorData = false ->
  nullish (get_prop errorData "error") = true ->
  fst (request this method endpoint body queryParams w)
  = Rejected (ThrownSX {| name := "SchedulifyXError";
                          message := "HTTP " ++ Number_toString (resp_status r);
                          code := JStr "http_error";
                          status := resp_status r;
                          details := JUndefined |}).
Proof.
  intros Hurl Hnext Hlt Hok Hjson Hdata Herror.
  rewrite (request_outcome _ _ _ _ _ _ _ Hurl), Hnext. cbn [call_outcome].
  assert ((t <? timer_delay (timeout this)) = true) as -> by lia.
  unfold answered_outcome, error_outcome. rewrite Hok, Hjson, Hdata.
  unfold api_message, api_error, opt_member. rewrite Herror. reflexivity.
Qed.

Lemma error_body_without_error_member_witness :
  let this := constructor (inr "sk_live_key") in
  let page := JObj [("message", JStr "Not Found"); ("statusCode", JNum 404)] in
  120 < timer_delay (timeout this)
  /\ ok (json_response 404 page) = false
  /\ fst (request this "GET" "/posts/none" JUndefined None
            (fresh_world [Responds 120 (json_response 404 page)]))
     = Rejected (ThrownSX {| name := "SchedulifyXError";
                             message := "HTTP 404";
                             code := JStr "http_error";
                             status := 404;
                             details := JUndefined |}).
Proof.
  split; [reflexivity|]. split; [reflexivity|].
  exact (error_body_without_error_member (host := plain_host)
           (constructor (inr "sk_live_key")) "GET" "/posts/none" JUndefined None _
           (fresh_world
              [Responds 120
                 (json_response 404
                    (JObj [("message", JStr "Not Found"); ("statusCode", JNum 404)]))])
           120 _ (JObj [("message", JStr "Not Found"); ("statusCode", JNum 404)])
           eq_refl eq_refl eq_refl eq_refl eq_refl eq_refl eq_refl).
Defined.

(** X8.  The timeout guards the fetch only, not the reading of the body:
    when the response arrives in time and its body never completes, the
    call stays pending for ever, with the timer cleared and nothing
    aborted, whether the status is 2xx or not. *)
Theorem body_stall_is_not_timed_out {host : Host} (this : SchedulifyX)
    (method endpoint : string) (body : jsval) (queryParams : option QueryParams)
    (url : URL) (w : World) (t : Z) (r : Response) :
  build_url this endpoint queryParams = Some url ->
  next_fetch w = Responds t r ->
  t < timer_delay (timeout this) ->
  resp_json r = Pending ->
  exists w',
    request this method endpoint body queryParams w = (Pending, w')
    /\ abort_timer w' = None
    /\ trace w' = (trace w
                   ++ [EvSetTimeout (timeout this);
                       EvFetch (URL_href url) (request_init this method body);
                       EvClearTimeout; EvJson])%list.
Proof.
  intros Hurl Hnext Hlt Hjson.
  exists (after_fetch w (answered_events this method url body)).
  split; [|split; reflexivity].
  destruct (ok r) eqn:Hok.
  - rewrite (request_ok_run _ _ _ _ _ _ _ _ _ Hurl Hnext Hlt Hok), Hjson. reflexivity.
  - enter_request Hurl.
    erewrite fetch_in_time; [| reflexivity | exact Hnext | exact Hlt].
    rewrite Hok. unfold_async. cbn. rewrite Hjson. cbn. tidy_trace. reflexivity.
Qed.

Lemma body_stall_is_not_timed_out_witness :
  let this := constructor (inl {| cfg_apiKey := "sk_live_key";
                                  cfg_baseUrl := None;
                                  cfg_timeout := Some 1000 |}) in
  let stalled := {| resp_status := 200; resp_json := Pending |} in
  20 < timer_delay (timeout this)
  /\ exists w',
       request this "GET" "/posts" JUndefined None (fresh_world [Responds 20 stalled])
       = (Pending, w')
       /\ abort_timer w' = None
       /\ trace w' = [EvSetTimeout 1000;
                      EvFetch "https://api.schedulifyx.com/posts"
                        (request_init this "GET" JUndefined);
                      EvClearTimeout; EvJson].
Proof.
  split; [reflexivity|].
  exact (body_stall_is_not_timed_out (host := plain_host)
           (constructor (inl {| cfg_apiKey := "sk_live_key";
                                cfg_baseUrl := None;
                                cfg_timeout := Some 1000 |}))
           "GET" "/posts" JUndefined None _
           (fresh_world [Responds 20 {| resp_status := 200; resp_json := Pending |}])
           20 {| resp_status := 200; resp_json := Pending |}
           eq_refl eq_refl eq_refl eq_refl).
Defined.

(* ================================================================== *)
(** ** The order and the rest of the constructed URL *)
(* ================================================================== *)

Module QueryOrder.
Import URLSearchParams.

(** Setting a name the list does not hold appends the pair. *)
Lemma set_fresh name value l :
  ~ In name (map fst l) -> set name value l = (l ++ [(name, value)])%list.
Proof.
  induction l as [|[k v] l IH]; cbn [set map fst app In]; intros Hfresh.
  - reflexivity.
  - assert ((k =? name)%string = false) as ->
      by (apply String.eqb_neq; intros ->; apply Hfresh; left; reflexivity).
    rewrite IH by (intros Hin; apply Hfresh; right; exact Hin). reflexivity.
Qed.

Lemma set_search_eta url : set_search url (url_search url) = url.
Proof. destruct url; reflexivity. Qed.

(** The loop over entries of distinct names, none of which the URL holds
    yet: the defined ones are appended in entry order. *)
Lemma fold_add_query_fresh entries : forall url,
  NoDup (map fst entries) ->
  (forall k, In k (map fst entries) -> ~ In k (map fst (url_search url))) ->
  fold_left add_query entries url
  = set_search url (url_search url ++ defined_pairs entries)%list.
Proof.
  induction entries as [|[k v] entries IH]; intros url Hnd Hfresh.
  - cbn. rewrite app_nil_r. symmetry. apply set_search_eta.
  - cbn [map fst] in Hnd, Hfresh. apply NoDup_cons_iff in Hnd as [Hk Hnd].
    cbn [fold_left].
    assert (forall value,
               value <> QUndefined ->
               fold_left add_query entries
                 (set_search url
                    (set k (ToString (QueryValue_jsval value)) (url_search url)))
               = set_search url
                   (url_search url
                    ++ (k, ToString (QueryValue_jsval value)) :: defined_pairs entries)%list)
      as Hdefined.
    { intros value _. rewrite set_fresh by (apply Hfresh; left; reflexivity).
      rewrite IH; [cbn; rewrite <- app_assoc; reflexivity | exact Hnd |].
      intros k' Hin. cbn [url_search set_search]. rewrite map_app, in_app_iff.
      intros [Hold|[<-|[]]].
      - exact (Hfresh k' (or_intror Hin) Hold).
      - exact (Hk Hin). }
    destruct v; unfold add_query; cbn [fst snd defined_pairs flat_map app];
      try (apply Hdefined; discriminate).
    apply IH; [exact Hnd|]. intros k' Hin. apply Hfresh. right. exact Hin.
Qed.

(** The loop writes the query only. *)
Lemma fold_add_query_frame entries : forall url,
  url_head (fold_left add_query entries url) = url_head url
  /\ url_hash (fold_left add_query entries url) = url_hash url.
Proof.
  induction entries as [|entry entries IH]; intros url; cbn [fold_left].
  - split; reflexivity.
  - destruct (IH (add_query url entry)) as [-> ->].
    unfold add_query. destruct (snd entry); split; reflexivity.
Qed.

End QueryOrder.

(** X9.  Query parameters keep the order of the object: for entries of
    distinct names, none of which the query of base URL and path holds
    already, the query of the constructed URL is that query followed by
    the entries with a defined value, in entry order, each with its value
    as a string. *)
Theorem query_params_in_entry_order {host : Host} (this : SchedulifyX)
    (endpoint : string) (entries : QueryParams) (parsed : URL) :
  URL_parse (baseUrl this ++ endpoint) = Some parsed ->
  NoDup (map fst entries) ->
  (forall k, In k (map fst entries) -> ~ In k (map fst (url_search parsed))) ->
  build_url this endpoint (Some entries)
  = Some {| url_head := url_head parsed;
            url_search := (url_search parsed ++ defined_pairs entries)%list;
            url_hash := url_hash parsed |}.
Proof.
  intros Hparse Hnd Hfresh. unfold build_url. rewrite Hparse.
  rewrite (QueryOrder.fold_add_query_fresh entries parsed Hnd Hfresh). reflexivity.
Qed.

Lemma query_params_in_entry_order_witness :
  let this := constructor (inr "sk_live_key") in
  let entries := [("status", QString "scheduled"); ("accountId", QUndefined);
                  ("limit", QNumber 20); ("offset", QNumber 0)] in
  NoDup (map fst entries)
  /\ option_map URL_href (build_url this "/posts" (Some entries))
     = Some "https://api.schedulifyx.com/posts?status=scheduled&limit=20&offset=0".
Proof.
  assert (NoDup (map fst [("status", QString "scheduled"); ("accountId", QUndefined);
                          ("limit", QNumber 20); ("offset", QNumber 0)])) as Hnd
    by (repeat constructor; cbn; intuition discriminate).
  split; [exact Hnd|].
  exact (f_equal (option_map URL_href)
           (query_params_in_entry_order (host := plain_host)
              (constructor (inr "sk_live_key")) "/posts"
              [("status", QString "scheduled"); ("accountId", QUndefined);
               ("limit", QNumber 20); ("offset", QNumber 0)]
              (mkURL "https://api.schedulifyx.com/posts" [] "")
              eq_refl Hnd (fun k _ Hin => Hin))).
Defined.

(** X10.  The dispatcher writes nothing but the named query parameters:
    scheme, authority, path and fragment of the constructed URL are those
    of base URL and path, and so is every query parameter whose name is
    not a key of the query-parameter object; with no object the URL is
    base URL and path as parsed. *)
Theorem build_url_frame {host : Host} (this : SchedulifyX) (endpoint : string)
    (queryParams : option QueryParams) (parsed url : URL) :
  URL_parse (baseUrl this ++ endpoint) = Some parsed ->
  build_url this endpoint queryParams = Some url ->
  url_head url = url_head parsed
  /\ url_hash url = url_hash parsed
  /\ match queryParams with
     | Some entries =>
         forall other, ~ In other (map fst entries) ->
           URLSearchParams.getAll other (url_search url)
           = URLSearchParams.getAll other (url_search parsed)
     | None => url = parsed
     end.
Proof.
  intros Hparse Hbuild. unfold build_url in Hbuild. rewrite Hparse in Hbuild.
  injection Hbuild as <-. destruct queryParams as [entries|].
  - destruct (QueryOrder.fold_add_query_frame entries parsed) as [-> ->].
    repeat split. intros other Hother.
    apply QueryFacts.fold_add_query_other. exact Hother.
  - repeat split.
Qed.

Lemma build_url_frame_witness :
  let this := constructor (inr "sk_live_key") in
  exists url,
    build_url this "/analytics/account/acc_1?tz=utc" (Some [("days", QNumber 7)])
    = Some url
    /\ url_head url = "https://api.schedulifyx.com/analytics/account/acc_1"
    /\ url_hash url = ""
    /\ forall other, ~ In other (map fst [("days", QNumber 7)]) ->
         URLSearchParams.getAll other (url_search url)
         = URLSearchParams.getAll other [("tz", "utc")].
Proof.
  eexists. split; [reflexivity|].
  exact (build_url_frame (host := plain_host)
           (constructor (inr "sk_live_key"))
           "/analytics/account/acc_1?tz=utc" (Some [("days", QNumber 7)])
           (mkURL "https://api.schedulifyx.com/analytics/account/acc_1"
              [("tz", "utc")] "")
           _ eq_refl eq_refl).
Defined.

(* ================================================================== *)
(** ** Further properties of the call-sites *)
(* ================================================================== *)

(** The endpoints of verb GET or DELETE pass no body to the
    dispatcher. *)
Lemma get_delete_body (c : ApiCall) (verb endpoint : string) (data : jsval)
    (queryParams : option QueryParams) :
  dispatch_args c = (verb, endpoint, data, queryParams) ->
  verb = "GET" \/ verb = "DELETE" ->
  data = JUndefined.
Proof.
  destruct c; cbn; intros Hargs; injection Hargs as <- <- <- <-;
    intros [Hverb|Hverb]; try reflexivity; discriminate Hverb.
Qed.

(** X11.  Every endpoint whose verb is GET or DELETE is sent with no
    body at all, whatever arguments the caller gives. *)
Theorem get_delete_send_no_body {host : Host} (this : SchedulifyX) (c : ApiCall)
    (verb endpoint : string) (data : jsval) (queryParams : option QueryParams)
    (url : URL) (w : World) :
  dispatch_args c = (verb, endpoint, data, queryParams) ->
  build_url this endpoint queryParams = Some url ->
  verb = "GET" \/ verb = "DELETE" ->
  exists later,
    trace (snd (invoke this c w))
    = (trace w
       ++ EvSetTimeout (timeout this)
          :: EvFetch (URL_href url)
               {| method := verb;
                  headers := request_headers this;
                  body := None;
                  signal := true |}
          :: later)%list.
Proof.
  intros Hargs Hurl Hverb.
  rewrite invoke_request, Hargs.
  destruct (request_sends this verb endpoint data queryParams url w Hurl)
    as [later Htrace].
  exists later. rewrite Htrace.
  rewrite (get_delete_body c verb endpoint data queryParams Hargs Hverb).
  reflexivity.
Qed.

Lemma get_delete_send_no_body_witness :
  let this := constructor (inr "sk_live_key") in
  exists later,
    trace (snd (invoke this (TenantsDisconnectAccount "tenant_1" "acc_9")
                  (fresh_world [Responds 60 (json_response 200 JNull)])))
    = (EvSetTimeout 30000
         :: EvFetch "https://api.schedulifyx.com/tenants/tenant_1/accounts/acc_9"
              {| method := "DELETE";
                 headers := request_headers this;
                 body := None;
                 signal := true |}
         :: later)%list.
Proof.
  exact (get_delete_send_no_body (host := plain_host)
           (constructor (inr "sk_live_key"))
           (TenantsDisconnectAccount "tenant_1" "acc_9")
           "DELETE" "/tenants/tenant_1/accounts/acc_9" JUndefined None _
           (fresh_world [Responds 60 (json_response 200 JNull)])
           eq_refl eq_refl (or_intror eq_refl)).
Defined.

(** X12.  [webhooks.test] always sends a body: with no event type it is
    the empty JSON object (the property is dropped, it is not written as
    [null], and the body is not omitted), with an event type it is the
    object with that one property. *)
Theorem webhooks_test_body {host : Host} (this : SchedulifyX) (webhookId : string)
    (eventType : option string) (url : URL) (w : World) :
  build_url this ("/webhooks/" ++ webhookId ++ "/test") None = Some url ->
  exists later,
    trace (snd (webhooks_test this webhookId eventType w))
    = (trace w
       ++ EvSetTimeout (timeout this)
          :: EvFetch (URL_href url)
               {| method := "POST";
                  headers := request_headers this;
                  body := Some (BodyText
                                  match eventType with
                                  | None => "{}"
                                  | Some e => ("{" ++ QuoteJSONString "eventType" ++ ":"
                                               ++ QuoteJSONString e ++ "}")%string
                                  end);
                  signal := true |}
          :: later)%list.
Proof.
  intros Hurl. unfold webhooks_test.
  destruct (request_sends this "POST" ("/webhooks/" ++ webhookId ++ "/test")
              (JObj [("eventType", opt_string eventType)]) None url w Hurl)
    as [later Htrace].
  exists later. rewrite Htrace. destruct eventType; reflexivity.
Qed.

Lemma webhooks_test_body_witness :
  let this := constructor (inr "sk_live_key") in
  exists later,
    trace (snd (webhooks_test this "wh_123" None
                  (fresh_world [Responds 60 (json_response 200 JNull)])))
    = (EvSetTimeout 30000
         :: EvFetch "https://api.schedulifyx.com/webhooks/wh_123/test"
              {| method := "POST";
                 headers := request_headers this;
                 body := Some (BodyText "{}");
                 signal := true |}
         :: later)%list.
Proof.
  exact (webhooks_test_body (host := plain_host)
           (constructor (inr "sk_live_key")) "wh_123" None _
           (fresh_world [Responds 60 (json_response 200 JNull)]) eq_refl).
Defined.

(** X13.  [queue.preview] on a base URL with no query of its own asks
    for [accountId] first and, only when a count is given, for [count]
    after it; without a count the URL carries no [count] at all. *)
Theorem queue_preview_query {host : Host} (this : SchedulifyX) (accountId : string)
    (count : option Z) (parsed : URL) (w : World) :
  URL_parse (baseUrl this ++ "/queue/preview") = Some parsed ->
  url_search parsed = [] ->
  exists later,
    trace (snd (queue_preview this accountId count w))
    = (trace w
       ++ EvSetTimeout (timeout this)
          :: EvFetch
               (URL_href
                  {| url_head := url_head parsed;
                     url_search := ("accountId", accountId)
                                   :: match count with
                                      | Some n => [("count", Number_toString n)]
                                      | None => []
                                      end;
                     url_hash := url_hash parsed |})
               (request_init this "GET" JUndefined)
          :: later)%list.
Proof.
  intros Hparse Hempty. unfold queue_preview.
  apply request_sends. unfold build_url. rewrite Hparse.
  rewrite QueryOrder.fold_add_query_fresh.
  - rewrite Hempty. destruct count; reflexivity.
  - repeat constructor; cbn; intuition discriminate.
  - intros k _. rewrite Hempty. intros [].
Qed.

Lemma queue_preview_query_witness :
  let this := constructor (inr "sk_live_key") in
  exists later,
    trace (snd (queue_preview this "acc_1" None
                  (fresh_world [Responds 60 (json_response 200 JNull)])))
    = (EvSetTimeout 30000
         :: EvFetch "https://api.schedulifyx.com/queue/preview?accountId=acc_1"
              (request_init this "GET" JUndefined)
         :: later)%list.
Proof.
  exact (queue_preview_query (host := plain_host)
           (constructor (inr "sk_live_key")) "acc_1" None
           (mkURL "https://api.schedulifyx.com/queue/preview" [] "")
           (fresh_world [Responds 60 (json_response 200 JNull)])
           eq_refl eq_refl).
Defined.

(** X14.  Whatever it is constructed with, a client has a non-empty base
    URL and a non-zero timeout; a negative timeout is kept as given. *)
Theorem constructor_invariant (config : SchedulifyXConfig + string) :
  baseUrl (constructor config) <> ""
  /\ timeout (constructor config) <> 0
  /\ (forall c n,
        config = inl c -> cfg_timeout c = Some n -> n < 0 ->
        timeout (constructor config) = n).
Proof.
  destruct config as [[key b t]|key]; cbn.
  - repeat split.
    + destruct b as [s|]; cbn; [|discriminate].
      destruct (s =? "")%string eqn:E; cbn; [discriminate|].
      apply String.eqb_neq. exact E.
    + destruct t as [n|]; cbn; [|discriminate].
      destruct (n =? 0) eqn:E; cbn; [discriminate|lia].
    + intros c n Hc Hn Hneg. injection Hc as <-. cbn in Hn. subst t. cbn.
      assert ((n =? 0) = false) as -> by lia. reflexivity.
  - repeat split; try discriminate.
Qed.

Lemma constructor_invariant_witness :
  let config := inl {| cfg_apiKey := "sk_live_key";
                       cfg_baseUrl := Some "";
                       cfg_timeout := Some (-5) |} in
  baseUrl (constructor config) <> ""
  /\ timeout (constructor config) <> 0
  /\ timeout (constructor config) = -5.
Proof.
  destruct (constructor_invariant
              (inl {| cfg_apiKey := "sk_live_key";
                      cfg_baseUrl := Some "";
                      cfg_timeout := Some (-5) |}))
    as (Hbase & Htimeout & Hnegative).
  split; [exact Hbase|]. split; [exact Htimeout|].
  exact (Hnegative _ (-5) eq_refl eq_refl eq_refl).
Defined.



(** X16.  Calls do not interfere: when a first call has resolved, a
    second call made after it settles exactly as it would in a fresh
    world holding the rest of the network; the first call leaves behind
    neither an armed timer nor anything else the second one can see. *)
Theorem calls_do_not_interfere {host : Host} (this : SchedulifyX)
    (method1 endpoint1 : string) (body1 : jsval) (queryParams1 : option QueryParams)
    (method2 endpoint2 : string) (body2 : jsval) (queryParams2 : option QueryParams)
    (w : World) (v : jsval) :
  fst (request this method1 endpoint1 body1 queryParams1 w) = Fulfilled v ->
  fst ((request this method1 endpoint1 body1 queryParams1 ;;
        request this method2 endpoint2 body2 queryParams2) w)
  = fst (request this method2 endpoint2 body2 queryParams2
           (fresh_world (tl (network w)))).
Proof.
  intros Hfirst.
  destruct (build_url this endpoint1 queryParams1) as [url1|] eqn:Hurl1;
    [|unfold request in Hfirst; rewrite Hurl1 in Hfirst; discriminate].
  destruct (request_shape this method1 endpoint1 body1 queryParams1 url1 w Hurl1)
    as (later & Hworld & _).
  unfold bind.
  destruct (request this method1 endpoint1 body1 queryParams1 w) as [o w1].
  cbn [fst snd] in Hfirst, Hworld. subst o w1.
  destruct (build_url this endpoint2 queryParams2) as [url2|] eqn:Hurl2.
  - rewrite !(request_outcome _ _ _ _ _ _ _ Hurl2). reflexivity.
  - unfold request. rewrite Hurl2. reflexivity.
Qed.

Lemma calls_do_not_interfere_witness :
  let this := constructor (inr "sk_live_key") in
  let created := JObj [("data", JObj [("id", JStr "post_1")])] in
  let net := [Responds 50 (json_response 201 created);
              Responds 70 (json_response 404 (JObj []))] in
  fst ((request this "POST" "/posts" (JObj [("content", JStr "hi")]) None ;;
        request this "POST" "/posts/post_1/publish" JUndefined None)
         (fresh_world net))
  = fst (request this "POST" "/posts/post_1/publish" JUndefined None
           (fresh_world [Responds 70 (json_response 404 (JObj []))])).
Proof.
  exact (calls_do_not_interfere (host := plain_host)
           (constructor (inr "sk_live_key"))
           "POST" "/posts" (JObj [("content", JStr "hi")]) None
           "POST" "/posts/post_1/publish" JUndefined None
           (fresh_world [Responds 50 (json_response 201
                                        (JObj [("data", JObj [("id", JStr "post_1")])]));
                         Responds 70 (json_response 404 (JObj []))])
           (JObj [("data", JObj [("id", JStr "post_1")])])
           eq_refl).
Defined.

(** X17.  The fields of an error body are not checked to be strings.
    For a response that is not 2xx whose body has an [error] member with
    truthy [code] and [message] of any JSON type (numbers within the
    model): when [String(message)] returns, the raised error's code is the
    [code] value as it is (a number stays a number), its message is
    [String(message)], its details are the body's and its status is the
    response's; when [String(message)] throws (a message object with a
    [toString] property of its own), the constructor throws inside the
    [try] block and the call rejects with code [network_error] and
    status 0. *)
Theorem api_error_untyped_fields {host : Host} (this : SchedulifyX)
    (method endpoint : string) (body : jsval) (queryParams : option QueryParams)
    (url : URL) (w : World) (t : Z) (r : Response) (errorBody error : jsval) :
  build_url this endpoint queryParams = Some url ->
  next_fetch w = Responds t r ->
  t < timer_delay (timeout this) ->
  ok r = false ->
  resp_json r = Fulfilled errorBody ->
  get_prop errorBody "error" = error ->
  nullish error = false ->
  truthy (get_prop error "code") = true ->
  truthy (get_prop error "message") = true ->
  numbers_safe (get_prop error "message") = true ->
  exists e,
    fst (request this method endpoint body queryParams w) = Rejected (ThrownSX e)
    /\ if String_throws (get_prop error "message")
       then code e = JStr "network_error" /\ status e = 0
       else code e = get_prop error "code"
            /\ message e = ToString (get_prop error "message")
            /\ details e = get_prop error "details"
            /\ status e = resp_status r.
Proof.
  intros Hurl Hnext Hlt Hok Hjson Herror Hne Hcode Hmessage _.
  assert (nullish errorBody = false) as Hnb
    by (destruct errorBody; try reflexivity; cbn in Herror; subst error; discriminate).
  rewrite (request_outcome _ _ _ _ _ _ _ Hurl), Hnext. cbn [call_outcome].
  assert ((t <? timer_delay (timeout this)) = true) as -> by lia.
  unfold answered_outcome, error_outcome. rewrite Hok, Hjson, Hnb.
  unfold api_message, api_error, opt_member. rewrite Herror, Hne.
  unfold or_else. rewrite Hcode, Hmessage.
  destruct (String_throws (get_prop error "message")).
  - eexists. split; [reflexivity|]. split; reflexivity.
  - eexists. split; [reflexivity|]. cbn. repeat split.
    destruct (get_prop error "message"); try reflexivity; discriminate.
Qed.

Lemma api_error_untyped_fields_witness :
  let this := constructor (inr "sk_live_key") in
  let listed := JObj [("code", JNum 1042);
                      ("message", JArr [JStr "too many posts"; JStr "slow down"])] in
  let hidden := JObj [("code", JStr "x");
                      ("message", JObj [("toString", JNum 1)])] in
  120 < timer_delay (timeout this)
  /\ (exists e,
        fst (request this "POST" "/posts" (JObj []) None
               (fresh_world [Responds 120 (json_response 429 (JObj [("error", listed)]))]))
        = Rejected (ThrownSX e)
        /\ code e = JNum 1042
        /\ message e = "too many posts,slow down"
        /\ details e = JUndefined
        /\ status e = 429)
  /\ (exists e,
        fst (request this "POST" "/posts" (JObj []) None
               (fresh_world [Responds 120 (json_response 429 (JObj [("error", hidden)]))]))
        = Rejected (ThrownSX e)
        /\ code e = JStr "network_error"
        /\ status e = 0).
Proof.
  split; [reflexivity|]. split.
  - exact (api_error_untyped_fields (host := plain_host)
             (constructor (inr "sk_live_key")) "POST" "/posts" (JObj []) None _
             (fresh_world
                [Responds 120
                   (json_response 429
                      (JObj [("error",
                              JObj [("code", JNum 1042);
                                    ("message",
                                     JArr [JStr "too many posts"; JStr "slow down"])])]))])
             120 _ _ _
             eq_refl eq_refl eq_refl eq_refl eq_refl eq_refl eq_refl eq_refl eq_refl
             eq_refl).
  - exact (api_error_untyped_fields (host := plain_host)
             (constructor (inr "sk_live_key")) "POST" "/posts" (JObj []) None _
             (fresh_world
                [Responds 120
                   (json_response 429
                      (JObj [("error",
                              JObj [("code", JStr "x");
                                    ("message", JObj [("toString", JNum 1)])])]))])
             120 _ _ _
             eq_refl eq_refl eq_refl eq_refl eq_refl eq_refl eq_refl eq_refl eq_refl
             eq_refl).
Defined.
